(** * gns3.modules.virtualbox: the VirtualBox module

    A shallow embedding of [gns3/modules/virtualbox/__init__.py]: the
    template registry [_virtualbox_vms], the node registry [_nodes], the
    module settings [_settings], their persistence through [QSettings] and
    [LocalServerConfig], and the template resolution of [setupNode]. *)

From stdpp Require Import base option list strings pretty gmap fin_maps.

(** ** Python values *)

(** The values that live in the settings dictionaries: [None], [str],
    [bool] and [int]. *)
Inductive value :=
  | VNone
  | VStr (s : string)
  | VBool (b : bool)
  | VInt (n : Z).

Global Instance value_eq_dec : EqDecision value.
Proof. solve_decision. Defined.

(** The Python types named by a [type=] argument of [QSettings.value]. *)
Inductive vtype := TStr | TBool | TInt.

Definition has_type (v : value) (ty : vtype) : bool :=
  match v, ty with
  | VStr _, TStr | VBool _, TBool | VInt _, TInt => true
  | _, _ => false
  end.

(** Truth value of an object, as tested by [if x] and [not x]. *)
Definition truthy (v : value) : bool :=
  match v with
  | VNone => false
  | VStr s => negb (bool_decide (s = ""))
  | VBool b => b
  | VInt n => negb (bool_decide (n = 0%Z))
  end.

(** [bool] is a subclass of [int]: [True == 1]. *)
Definition as_int (v : value) : option Z :=
  match v with
  | VBool b => Some (if b then 1 else 0)%Z
  | VInt n => Some n
  | _ => None
  end.

(** The operator [==]. *)
Definition py_eq (a b : value) : bool :=
  match a, b with
  | VNone, VNone => true
  | VStr s, VStr t => bool_decide (s = t)
  | (VBool _ | VInt _), (VBool _ | VInt _) => bool_decide (as_int a = as_int b)
  | _, _ => false
  end.

(** A replacement field [{}] of [str.format]. *)
Definition py_format (v : value) : string :=
  match v with
  | VNone => "None"
  | VStr s => s
  | VBool b => if b then "True" else "False"
  | VInt n => pretty n
  end.

(** A setting dictionary: option name to value.  Only its contents are
    observed, never its order. *)
Abbreviation settings_dict := (gmap string value).

(** ** Insertion-ordered dictionaries

    [_virtualbox_vms] is iterated by [items()] and [values()], and the order
    of the iteration reaches the selection dialog and the persisted array, so
    it is kept as an association list in insertion order. *)
Section PyDict.
Context {A : Type}.

Fixpoint dict_get (k : string) (d : list (string * A)) : option A :=
  match d with
  | [] => None
  | (k', v) :: rest => if decide (k = k') then Some v else dict_get k rest
  end.

(** [k in d] *)
Definition dict_in (k : string) (d : list (string * A)) : bool :=
  bool_decide (is_Some (dict_get k d)).

(** [d[k] = v]: an existing key keeps its position, a new key goes last. *)
Fixpoint dict_set (k : string) (v : A) (d : list (string * A)) : list (string * A) :=
  match d with
  | [] => [(k, v)]
  | (k', v') :: rest =>
      if decide (k = k') then (k, v) :: rest else (k', v') :: dict_set k v rest
  end.

Definition dict_keys (d : list (string * A)) : list string := d.*1.
Definition dict_values (d : list (string * A)) : list A := d.*2.
End PyDict.

(** ** Errors *)

Inductive error :=
  | ModuleError (msg : string)
  | KeyError (key : string).

Inductive result (A : Type) :=
  | Ok (a : A)
  | Raise (e : error).
Arguments Ok {A} a.
Arguments Raise {A} e.

Global Instance result_ret : MRet result := λ A a, Ok a.
Global Instance result_bind : MBind result := λ A B f r,
  match r with
  | Ok a => f a
  | Raise e => Raise e
  end.

(** [d[k]] on a setting dictionary. *)
Definition getitem (d : settings_dict) (k : string) : result value :=
  match d !! k with
  | Some v => Ok v
  | None => Raise (KeyError k)
  end.

(** ** The objects around the module *)

(** [node.server()]: a [WebSocketClient]. *)
Record Server := { host : string; isLocal : bool }.

(** A node of the topology, as far as the module looks at it. *)
Record Node := {
  node_id : nat;
  node_server : Server;
  node_settings : settings_dict
}.

Global Instance Server_eq_dec : EqDecision Server.
Proof. solve_decision. Defined.
Global Instance Node_eq_dec : EqDecision Node.
Proof. solve_decision. Defined.

(** The instance attributes set by [VirtualBox.__init__]. *)
Record VirtualBox := {
  _settings : settings_dict;
  _virtualbox_vms : list (string * settings_dict);
  _nodes : list Node;
  _working_dir : string
}.

(** What the module does to its collaborators. *)
Inductive event :=
  | SaveSettings (section : string) (settings : settings_dict)
  | InputDialog (items : list string)
  | NodeSetup (node : Node) (vmname : value) (linked_clone : value)
              (additional_settings : settings_dict).

(** The module instance together with everything it reads and writes:
    the array [VM] of the [QSettings] group [VirtualBoxVMs], the answer of
    the user to [QInputDialog.getItem], and the calls made so far. *)
Record World := {
  self : VirtualBox;
  qsettings : list settings_dict;
  getItem : list string → string * bool;
  calls : list event
}.

Definition with_self (vb : VirtualBox) (w : World) : World :=
  {| self := vb; qsettings := qsettings w;
     getItem := getItem w; calls := calls w |}.

Definition with_qsettings (q : list settings_dict) (w : World) : World :=
  {| self := self w; qsettings := q;
     getItem := getItem w; calls := calls w |}.

Definition with_call (e : event) (w : World) : World :=
  {| self := self w; qsettings := qsettings w;
     getItem := getItem w; calls := calls w ++ [e] |}.

(** The calls of [node.setup] made so far. *)
Definition is_node_setup (e : event) : bool :=
  match e with
  | NodeSetup _ _ _ _ => true
  | _ => false
  end.

Definition setup_calls (w : World) : list event :=
  filter (λ e, is_node_setup e = true) (calls w).

(** ** Methods as state transformers that may raise *)

Definition M (A : Type) : Type := World → result A * World.

Global Instance M_ret : MRet M := λ A a w, (Ok a, w).
Global Instance M_bind : MBind M := λ A B f m w,
  match m w with
  | (Ok a, w') => f a w'
  | (Raise e, w') => (Raise e, w')
  end.

Definition raise {A} (e : error) : M A := λ w, (Raise e, w).
Definition lift {A} (r : result A) : M A := λ w, (r, w).
Definition get_self : M VirtualBox := λ w, (Ok (self w), w).
Definition put_self (vb : VirtualBox) : M unit := λ w, (Ok (), with_self vb w).
Definition emit (e : event) : M unit := λ w, (Ok (), with_call e w).

(** The world a method leaves behind. *)
Definition exec {A} (m : M A) (w : World) : World := (m w).2.

Definition set_settings (s : settings_dict) (vb : VirtualBox) : VirtualBox :=
  {| _settings := s; _virtualbox_vms := _virtualbox_vms vb;
     _nodes := _nodes vb; _working_dir := _working_dir vb |}.

Definition set_virtualbox_vms (vms : list (string * settings_dict))
    (vb : VirtualBox) : VirtualBox :=
  {| _settings := _settings vb; _virtualbox_vms := vms;
     _nodes := _nodes vb; _working_dir := _working_dir vb |}.

Definition set_nodes (ns : list Node) (vb : VirtualBox) : VirtualBox :=
  {| _settings := _settings vb; _virtualbox_vms := _virtualbox_vms vb;
     _nodes := ns; _working_dir := _working_dir vb |}.

(** ** The messages of the three [ModuleError]s of [setupNode] *)

Definition NoTemplateAvailable (h : string) : error :=
  ModuleError ("No VirtualBox VM on server " +:+ h).

Definition SelectionCancelled : error :=
  ModuleError "Please select a VirtualBox VM".

Definition TemplateAlreadyInUse : error :=
  ModuleError "Sorry a VirtualBox VM can only be used once in your topology (this will change in future versions)".

(** ** The module *)

Section VirtualBox.

(** [settings.py] is not part of the sources at hand: the table of the
    template settings with their default values, the table of their types,
    and the conversion [QSettings.value] applies for a [type=] argument are
    taken as given. *)
Variable VBOX_VM_SETTINGS : settings_dict.
Variable VBOX_VM_SETTING_TYPES : string → vtype.
Variable convert : vtype → value → value.

(** *** [QSettings], group [VirtualBoxVMs], array [VM] *)

(** [settings.value(key)] at the current array index. *)
Definition qvalue (rec : settings_dict) (key : string) : value :=
  default VNone (rec !! key).

(** [settings.value(key, default_value, type)] *)
Definition qvalue_typed (rec : settings_dict) (key : string)
    (default_value : value) (ty : vtype) : value :=
  convert ty (default default_value (rec !! key)).

(** [settings.setValue(name, value)] at array index [index]. *)
Definition setValue (index : nat) (name : string) (v : value)
    (arr : list settings_dict) : list settings_dict :=
  alter (λ rec, <[name := v]> rec) index arr.

(** [settings.remove("")] followed by [settings.beginWriteArray("VM", size)] *)
Definition beginWriteArray (size : nat) : list settings_dict :=
  replicate size ∅.

(** *** [_loadVirtualBoxVMs] *)

(** The key of the record at the current index (line 86). *)
Definition record_key (rec : settings_dict) : string :=
  py_format (qvalue rec "server") +:+ ":" +:+ py_format (qvalue rec "vmname").

(** The inner loop over [VBOX_VM_SETTINGS.items()] (lines 89 to 91). *)
Definition read_vm (rec : settings_dict) : settings_dict :=
  map_imap (λ setting_name default_value,
    Some (qvalue_typed rec setting_name default_value
            (VBOX_VM_SETTING_TYPES setting_name))) VBOX_VM_SETTINGS.

(** The test of line 87, apart from [key in self._virtualbox_vms]. *)
Definition usable (rec : settings_dict) : bool :=
  truthy (qvalue rec "vmname") && truthy (qvalue rec "server").

(** The loop over [range(0, size)] (lines 82 to 91). *)
Fixpoint load_vms (records : list settings_dict)
    (vms : list (string * settings_dict)) : list (string * settings_dict) :=
  match records with
  | [] => vms
  | rec :: rest =>
      let vmname := qvalue rec "vmname" in
      let server := qvalue rec "server" in
      let key := record_key rec in
      if dict_in key vms || negb (truthy vmname) || negb (truthy server)
      then load_vms rest vms
      else load_vms rest (dict_set key (read_vm rec) vms)
  end.

(** One turn of that loop, as the proofs see it: the record is appended
    under its key, or skipped. *)
Definition load_step (rec : settings_dict)
    (vms : list (string * settings_dict)) : list (string * settings_dict) :=
  if usable rec && negb (dict_in (record_key rec) vms)
  then vms ++ [(record_key rec, read_vm rec)]
  else vms.

Definition _loadVirtualBoxVMs : M unit := λ w,
  (Ok (), with_self
     (set_virtualbox_vms
        (load_vms (qsettings w) (_virtualbox_vms (self w))) (self w)) w).

(** *** [_saveVirtualBoxVMs] *)

(** The loop over [self._virtualbox_vms.values()] (lines 108 to 113). *)
Fixpoint write_vms (vms : list settings_dict) (index : nat)
    (arr : list settings_dict) : list settings_dict :=
  match vms with
  | [] => arr
  | vbox_vm :: rest =>
      write_vms rest (S index)
        (map_fold (λ name v, setValue index name v) arr vbox_vm)
  end.

Definition _saveVirtualBoxVMs : M unit := λ w,
  let vms := _virtualbox_vms (self w) in
  (Ok (), with_qsettings
     (write_vms (dict_values vms) 0 (beginWriteArray (length vms))) w).

(** *** [__init__], as far as the templates go (lines 45 and 51) *)

Definition init_virtualbox_vms : M unit :=
  vb ← get_self;
  put_self (set_virtualbox_vms [] vb);;
  _loadVirtualBoxVMs.

(** *** [virtualBoxVMs] *)

Definition virtualBoxVMs : M (list (string * settings_dict)) :=
  vb ← get_self;
  mret (_virtualbox_vms vb).

(** A template that [_saveVirtualBoxVMs] followed by [_loadVirtualBoxVMs]
    gives back under the same key: its key is the one line 86 computes from
    its own fields, both fields pass the test of line 87, its settings are
    those of [VBOX_VM_SETTINGS], and each value has the type of its
    setting. *)
Definition persistable (key : string) (vbox_vm : settings_dict) : bool :=
  bool_decide (record_key vbox_vm = key)
  && usable vbox_vm
  && bool_decide (dom vbox_vm = dom VBOX_VM_SETTINGS)
  && bool_decide (map_Forall (λ name v,
       has_type v (VBOX_VM_SETTING_TYPES name) = true) vbox_vm).

(** *** [setVirtualBoxVMs] *)

Definition setVirtualBoxVMs (new_virtualbox_vms : list (string * settings_dict))
    : M unit :=
  vb ← get_self;
  put_self (set_virtualbox_vms new_virtualbox_vms vb);;
  _saveVirtualBoxVMs.

(** *** The node registry *)

Definition addNode (node : Node) : M unit :=
  vb ← get_self;
  put_self (set_nodes (_nodes vb ++ [node]) vb).

(** [list.remove]: the first equal element goes. *)
Fixpoint list_remove (node : Node) (l : list Node) : list Node :=
  match l with
  | [] => []
  | n :: rest => if decide (node = n) then rest else n :: list_remove node rest
  end.

Definition removeNode (node : Node) : M unit :=
  vb ← get_self;
  if bool_decide (node ∈ _nodes vb)
  then put_self (set_nodes (list_remove node (_nodes vb)) vb)
  else mret ().

Definition reset : M unit :=
  vb ← get_self;
  put_self (set_nodes [] vb).

(** *** [setSettings] *)

(** [config.saveSettings(self.__class__.__name__, self._settings)] *)
Definition _saveSettings : M unit :=
  vb ← get_self;
  emit (SaveSettings "VirtualBox" (_settings vb)).

(** [dict.update]: the values of the argument win. *)
Definition setSettings (settings : settings_dict) : M unit :=
  vb ← get_self;
  put_self (set_settings (settings ∪ _settings vb) vb);;
  _saveSettings.

End VirtualBox.

(** ** [setupNode] *)

(** [if node_name:] *)
Definition name_given (node_name : option string) : bool :=
  match node_name with
  | Some s => negb (bool_decide (s = ""))
  | None => false
  end.

(** [if not vm:] on a key or [None]. *)
Definition key_given (vm : option string) : bool := name_given vm.

(** The loop of lines 209 to 211: every template is visited, and the last
    one whose [vmname] is the requested name stays in [vm]. *)
Fixpoint find_by_name (node_name : string)
    (items : list (string * settings_dict)) (vm : option string)
    : result (option string) :=
  match items with
  | [] => Ok vm
  | (vm_key, info) :: rest =>
      vmname ← getitem info "vmname";
      find_by_name node_name rest
        (if py_eq (VStr node_name) vmname then Some vm_key else vm)
  end.

(** The test of line 216. *)
Definition server_matches (srv : value) (s : Server) : bool :=
  py_eq srv (VStr (host s)) || (isLocal s && py_eq srv (VStr "local")).

(** The loop of lines 215 to 217. *)
Fixpoint select_by_server (s : Server)
    (items : list (string * settings_dict)) : result (list string) :=
  match items with
  | [] => Ok []
  | (vm, info) :: rest =>
      srv ← getitem info "server";
      selected ← select_by_server s rest;
      Ok (if server_matches srv s then vm :: selected else selected)
  end.

(** The test of lines 238 and 239, with the short circuits of [and] and
    [or]: the template's [server] is only read once the names agree. *)
Definition in_use_by (info : settings_dict) (other_node : Node) : result bool :=
  other_vmname ← getitem (node_settings other_node) "vmname";
  vmname ← getitem info "vmname";
  if py_eq other_vmname vmname then
    srv ← getitem info "server";
    if py_eq srv (VStr "local") && isLocal (node_server other_node) then Ok true
    else
      srv' ← getitem info "server";
      Ok (py_eq srv' (VStr (host (node_server other_node))))
  else Ok false.

(** The loop of lines 237 to 240. *)
Fixpoint check_unused (info : settings_dict) (nodes : list Node) : result unit :=
  match nodes with
  | [] => Ok ()
  | other_node :: rest =>
      used ← in_use_by info other_node;
      if used : bool then Raise TemplateAlreadyInUse else check_unused info rest
  end.

(** [self._virtualbox_vms[vm]] *)
Definition vm_getitem (vms : list (string * settings_dict)) (vm : string)
    : result settings_dict :=
  match dict_get vm vms with
  | Some info => Ok info
  | None => Raise (KeyError vm)
  end.

(** [QtGui.QInputDialog.getItem(mainwindow, ..., selected_vms, 0, False)] *)
Definition QInputDialog_getItem (items : list string) : M (string * bool) := λ w,
  (Ok (getItem w items), with_call (InputDialog items) w).

(** Lines 207 to 233: the key of the template to use. *)
Definition select_vm (node : Node) (node_name : option string) : M string :=
  vb ← get_self;
  vm ← lift (if name_given node_name
             then find_by_name (default "" node_name) (_virtualbox_vms vb) None
             else Ok None);
  if negb (key_given vm) then
    selected_vms ← lift (select_by_server (node_server node) (_virtualbox_vms vb));
    match selected_vms with
    | [] => raise (NoTemplateAvailable (host (node_server node)))
    | [vm] => mret vm
    | _ =>
        '(selection, ok) ← QInputDialog_getItem selected_vms;
        if ok : bool then mret selection else raise SelectionCancelled
    end
  else mret (default "" vm).

(** Lines 242 to 245. *)
Definition additional_settings_for (node : Node) (info : settings_dict)
    : settings_dict :=
  filter (λ kv, is_Some (node_settings node !! kv.1)) info.

Definition setupNode (node : Node) (node_name : option string) : M unit :=
  vm ← select_vm node node_name;
  vb ← get_self;
  info ← lift (vm_getitem (_virtualbox_vms vb) vm);
  linked_base ← lift (getitem info "linked_base");
  (if negb (truthy linked_base)
   then lift (check_unused info (_nodes vb))
   else mret ());;
  let settings := additional_settings_for node info in
  vmname ← lift (getitem info "vmname");
  emit (NodeSetup node vmname linked_base settings).

(** ** The data model of the registries *)

(** A template as the preferences page builds it: [vmname] and [server] are
    strings, [linked_base] is a boolean, and the key under which the template
    is registered is ["{server}:{vmname}"]. *)
Definition is_template (key : string) (info : settings_dict) : bool :=
  match info !! "vmname", info !! "server", info !! "linked_base" with
  | Some (VStr vmname), Some (VStr server), Some (VBool _) =>
      bool_decide (key = server +:+ ":" +:+ vmname)
  | _, _, _ => false
  end.

(** A template registry: templates under pairwise different keys. *)
Definition is_registry (vms : list (string * settings_dict)) : bool :=
  forallb (λ kv, is_template kv.1 kv.2) vms
  && bool_decide (NoDup (dict_keys vms)).

(** A node registry: every node has a [vmname] among its settings. *)
Definition is_node_registry (nodes : list Node) : bool :=
  forallb (λ n, bool_decide (is_Some (node_settings n !! "vmname"))) nodes.

(** The template is one of server [s]: its [server] is the host of [s], or
    it is ["local"] and [s] is the local server. *)
Definition on_server (info : settings_dict) (s : Server) : bool :=
  bool_decide (info !! "server" = Some (VStr (host s)))
  || (isLocal s && bool_decide (info !! "server" = Some (VStr "local"))).

(** The template has the given [vmname]. *)
Definition named (node_name : string) (kv : string * settings_dict) : Prop :=
  kv.2 !! "vmname" = Some (VStr node_name).

Global Instance named_dec node_name kv : Decision (named node_name kv).
Proof. unfold named. apply _. Defined.

(** The text of an exception. *)
Definition message (e : error) : string :=
  match e with
  | ModuleError msg => msg
  | KeyError key => key
  end.

(** [s in msg] on strings. *)
Definition includes (s msg : string) : Prop :=
  ∃ before after, msg = before +:+ s +:+ after.

(** ** The other methods of the module *)

(** *** [settings] *)

Definition settings : M settings_dict :=
  vb ← get_self;
  mret (_settings vb).

(** *** [nodes] *)

(** What the dictionaries of [nodes] hold: a setting value, or a list. *)
Inductive pyobj :=
  | PValue (v : value)
  | PList (l : list value).

Section Nodes.

(** [virtualbox_vm.py] is not part of the sources at hand: the name of the
    class [VirtualBoxVM] and the list its [categories] returns are taken as
    given. *)
Variable VirtualBoxVM_name : string.
Variable VirtualBoxVM_categories : list value.

(** The dictionary display of lines 288 to 294, key after key: the key
    ["categories"] is written twice. *)
Definition node_entry (vbox_vm : settings_dict) : result (gmap string pyobj) :=
  let d := <["class" := PValue (VStr VirtualBoxVM_name)]> ∅ in
  name ← getitem vbox_vm "vmname";
  let d := <["name" := PValue name]> d in
  server ← getitem vbox_vm "server";
  let d := <["server" := PValue server]> d in
  let d := <["categories" := PList VirtualBoxVM_categories]> d in
  default_symbol ← getitem vbox_vm "default_symbol";
  let d := <["default_symbol" := PValue default_symbol]> d in
  hover_symbol ← getitem vbox_vm "hover_symbol";
  let d := <["hover_symbol" := PValue hover_symbol]> d in
  category ← getitem vbox_vm "category";
  Ok (<["categories" := PList [category]]> d).

(** The loop of lines 286 to 295. *)
Fixpoint nodes_loop (vms : list settings_dict) (nodes : list (gmap string pyobj))
    : result (list (gmap string pyobj)) :=
  match vms with
  | [] => Ok nodes
  | vbox_vm :: rest =>
      entry ← node_entry vbox_vm;
      nodes_loop rest (nodes ++ [entry])
  end.

Definition nodes : M (list (gmap string pyobj)) :=
  vb ← get_self;
  lift (nodes_loop (dict_values (_virtualbox_vms vb)) []).

End Nodes.

(** *** [createNode] *)

(** The [WebSocketClient] as [createNode] looks at it. *)
Record WebSocketClient := {
  ws_host : string;
  ws_port : Z;
  ws_connected : bool
}.

Section CreateNode.

(** [server.reconnect()] gives the client as it is afterwards, or the text of
    the [OSError] it raises; [node_class(self, server, project)] runs the
    constructor of the node class, which is free to call back into the
    module.  Both belong to other files. *)
Context {Project NodeObject : Type}.
Variable reconnect : WebSocketClient → WebSocketClient + string.
Variable node_class : WebSocketClient → Project → M NodeObject.

(** The message of line 190. *)
Definition could_not_connect (server : WebSocketClient) (e : string) : error :=
  ModuleError ("Could not connect to server " +:+ ws_host server +:+ ":"
               +:+ pretty (ws_port server) +:+ ": " +:+ e).

Definition createNode (server : WebSocketClient) (project : Project)
    : M NodeObject :=
  server ← (if negb (ws_connected server) then
              match reconnect server with
              | inl server' => mret server'
              | inr e => raise (could_not_connect server e)
              end
            else mret server);
  node_class server project.

End CreateNode.

(** *** [__init__] *)

Section Init.

(** [config.loadSettings(self.__class__.__name__, VBOX_SETTINGS,
    VBOX_SETTING_TYPES)] belongs to [LocalServerConfig]: what it returns is
    taken as given. *)
Variable VBOX_VM_SETTINGS : settings_dict.
Variable VBOX_VM_SETTING_TYPES : string → vtype.
Variable convert : vtype → value → value.
Variable loaded_settings : settings_dict.

Definition _loadSettings : M unit :=
  vb ← get_self;
  put_self (set_settings loaded_settings vb).

Definition __init__ : M unit :=
  put_self {| _settings := ∅; _virtualbox_vms := []; _nodes := [];
              _working_dir := "" |};;
  _loadSettings;;
  _loadVirtualBoxVMs VBOX_VM_SETTINGS VBOX_VM_SETTING_TYPES convert.

End Init.

(** ** A concrete module, for the examples *)

(** Modelled from the spec: [VBOX_VM_SETTINGS] of [settings.py], which is
    missing; the settings are the fields the data model gives a template,
    each with a default value. *)
Definition ex_VBOX_VM_SETTINGS : settings_dict :=
  list_to_map [
    ("vmname", VStr "");
    ("server", VStr "local");
    ("linked_base", VBool false);
    ("default_symbol", VStr ":/symbols/vbox_guest.normal.svg");
    ("hover_symbol", VStr ":/symbols/vbox_guest.selected.svg");
    ("category", VInt 2)
  ].

(** Modelled from the spec: [VBOX_VM_SETTING_TYPES] of [settings.py], which
    is missing; the type of each of the settings above. *)
Definition ex_VBOX_VM_SETTING_TYPES (setting_name : string) : vtype :=
  if decide (setting_name = "linked_base") then TBool
  else if decide (setting_name = "category") then TInt
  else TStr.

(** Modelled from the spec: the conversion of [QSettings.value] to the type
    of the schema, which belongs to PyQt; a value of the type is returned as
    it is, another one is converted the way [QVariant] does. *)
Definition ex_convert (ty : vtype) (v : value) : value :=
  match ty, v with
  | TStr, VStr s => VStr s
  | TStr, VNone => VStr ""
  | TStr, VBool b => VStr (if b then "true" else "false")
  | TStr, VInt n => VStr (pretty n)
  | TBool, VBool b => VBool b
  | TBool, VStr s => VBool (bool_decide (s = "true"))
  | TBool, _ => VBool (truthy v)
  | TInt, _ => VInt (default 0%Z (as_int v))
  end.

Definition ex_template (vmname server : string) (linked_base : bool)
    : settings_dict :=
  list_to_map [
    ("vmname", VStr vmname);
    ("server", VStr server);
    ("linked_base", VBool linked_base);
    ("default_symbol", VStr ":/symbols/vbox_guest.normal.svg");
    ("hover_symbol", VStr ":/symbols/vbox_guest.selected.svg");
    ("category", VInt 2)
  ].

(** Two templates: a plain one on the local server, a linked base on a
    remote one. *)
Definition ex_vms : list (string * settings_dict) :=
  [ ("local:debian", ex_template "debian" "local" false);
    ("10.0.0.2:router", ex_template "router" "10.0.0.2" true) ].

Definition ex_local : Server := {| host := "127.0.0.1"; isLocal := true |}.
Definition ex_remote : Server := {| host := "10.0.0.2"; isLocal := false |}.
Definition ex_elsewhere : Server := {| host := "10.9.9.9"; isLocal := false |}.

(** The settings of a node of the module, bound to [vmname]. *)
Definition ex_node (id : nat) (s : Server) (vmname : string) : Node :=
  {| node_id := id; node_server := s;
     node_settings := list_to_map [
       ("name", VStr ""); ("vmname", VStr vmname);
       ("linked_base", VBool false); ("headless", VBool false) ] |}.

(** A user who cancels every dialog. *)
Definition ex_cancel (items : list string) : string * bool := ("", false).

(** A topology with one node on each template. *)
Definition ex_world : World :=
  {| self := {| _settings := ∅; _virtualbox_vms := ex_vms;
                _nodes := [ex_node 1 ex_local "debian"; ex_node 2 ex_remote "router"];
                _working_dir := "" |};
     qsettings := [];
     getItem := ex_cancel;
     calls := [] |}.

(** A stored array: the second record repeats the pair of the first one,
    the third has no [vmname]. *)
Definition ex_records : list settings_dict :=
  [ ex_template "debian" "local" false;
    ex_template "debian" "local" true;
    ex_template "" "local" false;
    ex_template "router" "10.0.0.2" true ].

(** A module whose registry is still empty, as [__init__] has it before the
    load, over the stored array. *)
Definition ex_start (records : list settings_dict) : World :=
  {| self := {| _settings := ∅; _virtualbox_vms := []; _nodes := [];
                _working_dir := "" |};
     qsettings := records;
     getItem := ex_cancel;
     calls := [] |}.

(** A stored array in which the second and the third record share the pair
    [("a", "b:c")], and the first record, of the pair [("a:b", "c")], has the
    key of both. *)
Definition ex_colliding_records : list settings_dict :=
  [ ex_template "c" "a:b" false;
    ex_template "b:c" "a" false;
    ex_template "b:c" "a" true ].

(** A stored array of two records of the pair [("local", "")]. *)
Definition ex_unnamed_records : list settings_dict :=
  [ ex_template "" "local" false;
    ex_template "" "local" true ].

(** A registry whose only template has an empty [vmname]. *)
Definition ex_unnamed_vms : list (string * settings_dict) :=
  [ ("local:", ex_template "" "local" false) ].

(** A user who accepts the first item of every dialog. *)
Definition ex_accept_first (items : list string) : string * bool :=
  (default "" (head items), true).

(** The topology once the node on the local template is gone. *)
Definition ex_world_free : World :=
  {| self := {| _settings := ∅; _virtualbox_vms := ex_vms;
                _nodes := [ex_node 2 ex_remote "router"];
                _working_dir := "" |};
     qsettings := [];
     getItem := ex_cancel;
     calls := [] |}.

(** Two templates on the local server, and one of the name of the first on a
    remote server. *)
Definition ex_vms_crowded : list (string * settings_dict) :=
  [ ("local:debian", ex_template "debian" "local" false);
    ("local:alpine", ex_template "alpine" "local" true);
    ("10.0.0.2:debian", ex_template "debian" "10.0.0.2" true) ].

Definition ex_world_crowded (user : list string → string * bool) : World :=
  {| self := {| _settings := ∅; _virtualbox_vms := ex_vms_crowded;
                _nodes := []; _working_dir := "" |};
     qsettings := [];
     getItem := user;
     calls := [] |}.

(** A registry with a template that has no symbols and no category. *)
Definition ex_world_bare : World :=
  {| self := {| _settings := ∅;
                _virtualbox_vms :=
                  [ ("local:bare",
                     list_to_map [ ("vmname", VStr "bare"); ("server", VStr "local");
                                   ("linked_base", VBool false) ]) ];
                _nodes := []; _working_dir := "" |};
     qsettings := [];
     getItem := ex_cancel;
     calls := [] |}.

(** A server that is down and stays down. *)
Definition ex_client : WebSocketClient :=
  {| ws_host := "10.0.0.2"; ws_port := 8000; ws_connected := false |}.

Definition ex_refused (server : WebSocketClient) : WebSocketClient + string :=
  inr "[Errno 111] Connection refused".

(** A node class whose constructor registers the node it builds. *)
Definition ex_node_class (server : WebSocketClient) (project : string)
    : M Node :=
  let node := ex_node 3 {| host := ws_host server; isLocal := false |} "" in
  addNode node;;
  mret node.

(** * Properties *)

(** ** Insertion-ordered dictionaries *)

Section DictFacts.
Context {A : Type}.
Implicit Types (d : list (string * A)) (k : string) (v : A).

Lemma dict_get_Some_elem d k v : dict_get k d = Some v → (k, v) ∈ d.
Proof.
  induction d as [|[k' v'] d IH]; simpl; [done|].
  case_decide; [intros [= ->]; subst; left | right; auto].
Qed.

Lemma dict_get_None d k : dict_get k d = None ↔ k ∉ d.*1.
Proof.
  induction d as [|[k' v'] d IH]; simpl.
  - split; [intros _; apply not_elem_of_nil | done].
  - case_decide; subst.
    + split; [done | intros []; left].
    + rewrite IH, not_elem_of_cons. tauto.
Qed.

Lemma dict_in_true d k : dict_in k d = true ↔ k ∈ d.*1.
Proof.
  unfold dict_in. rewrite bool_decide_eq_true.
  destruct (dict_get k d) eqn:E.
  - split; [intros _ | eauto].
    apply dict_get_Some_elem in E. apply list_elem_of_fmap. by exists (k, a).
  - apply dict_get_None in E. split; [intros [? ?]; done | done].
Qed.

Lemma dict_in_false d k : dict_in k d = false ↔ k ∉ d.*1.
Proof. rewrite <- dict_in_true. destruct (dict_in k d); naive_solver. Qed.

Lemma dict_set_fresh d k v : k ∉ d.*1 → dict_set k v d = d ++ [(k, v)].
Proof.
  induction d as [|[k' v'] d IH]; simpl; [done|].
  rewrite not_elem_of_cons. intros [? ?].
  case_decide; [done|]. by rewrite IH.
Qed.

Lemma dict_get_NoDup d k v : NoDup d.*1 → (k, v) ∈ d → dict_get k d = Some v.
Proof.
  induction d as [|[k' v'] d IH]; simpl.
  - intros _ H. by apply elem_of_nil in H.
  - rewrite NoDup_cons. intros [Hk Hd] [[= -> ->]|Hin]%elem_of_cons.
    + by rewrite decide_True.
    + rewrite decide_False; [by apply IH|].
      intros ->. apply Hk. apply list_elem_of_fmap. by exists (k', v).
Qed.

Lemma dict_get_app_l d d' k v :
  dict_get k d = Some v → dict_get k (d ++ d') = Some v.
Proof.
  induction d as [|[k' v'] d IH]; simpl; [done|]. by case_decide.
Qed.

Lemma dict_get_app_r d d' k :
  k ∉ d.*1 → dict_get k (d ++ d') = dict_get k d'.
Proof.
  induction d as [|[k' v'] d IH]; simpl; [done|].
  rewrite not_elem_of_cons. intros [? ?]. rewrite decide_False; auto.
Qed.
End DictFacts.

(** ** Loading the templates *)

Section Load.
Variable VBOX_VM_SETTINGS : settings_dict.
Variable VBOX_VM_SETTING_TYPES : string → vtype.
Variable convert : vtype → value → value.

Local Abbreviation load_vms := (load_vms VBOX_VM_SETTINGS VBOX_VM_SETTING_TYPES convert).
Local Abbreviation read_vm := (read_vm VBOX_VM_SETTINGS VBOX_VM_SETTING_TYPES convert).
Local Abbreviation load_step := (load_step VBOX_VM_SETTINGS VBOX_VM_SETTING_TYPES convert).

Implicit Types (rec : settings_dict) (records : list settings_dict)
  (vms : list (string * settings_dict)).

Lemma load_vms_cons rec records vms :
  load_vms (rec :: records) vms = load_vms records (load_step rec vms).
Proof.
  simpl. unfold load_step, usable.
  destruct (dict_in (record_key rec) vms) eqn:Hin; simpl.
  - by rewrite andb_false_r.
  - rewrite andb_true_r.
    destruct (truthy (qvalue rec "vmname")); simpl; [|done].
    destruct (truthy (qvalue rec "server")); simpl; [|done].
    by rewrite dict_set_fresh by by apply dict_in_false.
Qed.

Lemma load_vms_app records records' vms :
  load_vms (records ++ records') vms = load_vms records' (load_vms records vms).
Proof.
  revert vms. induction records as [|rec records IH]; intros vms; [done|].
  rewrite <- app_comm_cons, !load_vms_cons. apply IH.
Qed.

Lemma load_step_skip rec vms :
  record_key rec ∈ vms.*1 → load_step rec vms = vms.
Proof.
  intros Hin%dict_in_true. unfold load_step. rewrite Hin.
  by rewrite andb_false_r.
Qed.

Lemma load_step_unusable rec vms : usable rec = false → load_step rec vms = vms.
Proof. intros H. unfold load_step. by rewrite H. Qed.

Lemma load_step_keys rec vms k : k ∈ vms.*1 → k ∈ (load_step rec vms).*1.
Proof.
  unfold load_step. case_match; [|done].
  rewrite fmap_app, elem_of_app. auto.
Qed.

Lemma load_step_get rec vms k t :
  dict_get k vms = Some t → dict_get k (load_step rec vms) = Some t.
Proof.
  unfold load_step. case_match; [|done]. apply dict_get_app_l.
Qed.

Lemma load_step_NoDup rec vms : NoDup vms.*1 → NoDup (load_step rec vms).*1.
Proof.
  unfold load_step. case_match eqn:E; [|done].
  apply andb_true_iff in E as [_ E%negb_true_iff%dict_in_false].
  intros Hnd. rewrite fmap_app. apply NoDup_app. split; [done|].
  split; [|apply NoDup_singleton].
  simpl. intros k Hk ->%list_elem_of_singleton. done.
Qed.

Lemma load_vms_keys records vms k :
  k ∈ vms.*1 → k ∈ (load_vms records vms).*1.
Proof.
  revert vms. induction records as [|rec records IH]; intros vms; [done|].
  rewrite load_vms_cons. intros. by apply IH, load_step_keys.
Qed.

Lemma load_vms_get records vms k t :
  dict_get k vms = Some t → dict_get k (load_vms records vms) = Some t.
Proof.
  revert vms. induction records as [|rec records IH]; intros vms; [done|].
  rewrite load_vms_cons. intros. by apply IH, load_step_get.
Qed.

Lemma load_vms_NoDup records vms :
  NoDup vms.*1 → NoDup (load_vms records vms).*1.
Proof.
  revert vms. induction records as [|rec records IH]; intros vms; [done|].
  rewrite load_vms_cons. intros. by apply IH, load_step_NoDup.
Qed.

(** A record whose [vmname] or [server] is falsy leaves no trace. *)
Lemma load_vms_filter_usable records vms :
  load_vms records vms = load_vms (filter (λ rec, usable rec = true) records) vms.
Proof.
  revert vms. induction records as [|rec records IH]; intros vms; [done|].
  rewrite load_vms_cons. destruct (usable rec) eqn:E.
  - rewrite filter_cons_True by done. rewrite load_vms_cons. apply IH.
  - rewrite filter_cons_False by (rewrite E; done).
    rewrite load_step_unusable by done. apply IH.
Qed.

(** Whatever is in the registry after the loop was there before, or was
    read from a usable record of the array. *)
Lemma load_vms_elem records vms k t :
  (k, t) ∈ load_vms records vms →
  (k, t) ∈ vms ∨
  ∃ rec, rec ∈ records ∧ usable rec = true ∧ k = record_key rec ∧ t = read_vm rec.
Proof.
  revert vms. induction records as [|rec records IH]; intros vms; [by left|].
  rewrite load_vms_cons. intros [Hin|(r & ? & ? & ? & ?)]%IH.
  - unfold load_step in Hin. destruct (usable rec) eqn:E; simpl in Hin; [|by left].
    case_match; [|by left].
    apply elem_of_app in Hin as [?|[= -> ->]%list_elem_of_singleton]; [by left|].
    right. exists rec. split; [left|done].
  - right. exists r. split; [by right|done].
Qed.
End Load.

(** ** Saving the templates *)

Section Save.
Implicit Types (arr : list settings_dict) (vbox_vm : settings_dict).

(** The inner loop of [_saveVirtualBoxVMs] lays the template over the
    record at the current index. *)
Lemma setValue_items index vbox_vm arr :
  map_fold (λ name v, setValue index name v) arr vbox_vm
  = alter (λ rec, vbox_vm ∪ rec) index arr.
Proof.
  apply (map_fold_weak_ind
    (λ r m, r = alter (λ rec : settings_dict, m ∪ rec) index arr)).
  - symmetry. apply list_alter_id. intros rec. apply (left_id_L ∅ (∪)).
  - intros name v m r Hname ->. unfold setValue.
    rewrite list_alter_alter_eq. apply list_alter_ext; [|done].
    intros rec _. simpl. by rewrite insert_union_l.
Qed.

Lemma write_vms_fill vms (done_ : list settings_dict) :
  write_vms vms (length done_) (done_ ++ replicate (length vms) ∅)
  = done_ ++ vms.
Proof.
  revert done_. induction vms as [|vbox_vm vms IH]; intros done_; [done|].
  simpl. rewrite setValue_items.
  rewrite alter_app_r_alt by done. rewrite Nat.sub_diag. simpl.
  rewrite (right_id_L ∅ (∪)).
  specialize (IH (done_ ++ [vbox_vm])).
  rewrite length_app, Nat.add_1_r, <- !app_assoc in IH. exact IH.
Qed.

(** The array after [_saveVirtualBoxVMs]: the templates, in the order of
    the registry, and nothing of what was stored before. *)
Lemma _saveVirtualBoxVMs_array w :
  qsettings (exec _saveVirtualBoxVMs w) = (_virtualbox_vms (self w)).*2.
Proof.
  unfold exec, _saveVirtualBoxVMs, beginWriteArray, dict_values. simpl.
  rewrite <- (length_fmap snd).
  apply (write_vms_fill _ []).
Qed.
End Save.

(** ** What [_loadVirtualBoxVMs] keeps *)

Section LoadClaims.
Variable VBOX_VM_SETTINGS : settings_dict.
Variable VBOX_VM_SETTING_TYPES : string → vtype.
Variable convert : vtype → value → value.

Local Abbreviation load_vms := (load_vms VBOX_VM_SETTINGS VBOX_VM_SETTING_TYPES convert).
Local Abbreviation read_vm := (read_vm VBOX_VM_SETTINGS VBOX_VM_SETTING_TYPES convert).
Local Abbreviation load_step := (load_step VBOX_VM_SETTINGS VBOX_VM_SETTING_TYPES convert).
Local Abbreviation _loadVirtualBoxVMs :=
  (_loadVirtualBoxVMs VBOX_VM_SETTINGS VBOX_VM_SETTING_TYPES convert).

Implicit Types (rec : settings_dict) (records : list settings_dict)
  (vms : list (string * settings_dict)) (w : World).

Lemma _loadVirtualBoxVMs_vms w :
  _virtualbox_vms (self (exec _loadVirtualBoxVMs w))
  = load_vms (qsettings w) (_virtualbox_vms (self w)).
Proof. done. Qed.

Lemma usable_same_pair rec rec' :
  qvalue rec "server" = qvalue rec' "server" →
  qvalue rec "vmname" = qvalue rec' "vmname" →
  usable rec = usable rec' ∧ record_key rec = record_key rec'.
Proof. unfold usable, record_key. by intros -> ->. Qed.

Lemma load_step_key_in rec vms :
  usable rec = true → record_key rec ∈ (load_step rec vms).*1.
Proof.
  intros Hu. unfold load_step. rewrite Hu. simpl.
  destruct (dict_in (record_key rec) vms) eqn:E; simpl.
  - by apply dict_in_true.
  - rewrite fmap_app, elem_of_app. right. simpl. left.
Qed.

(** A later record with the pair of an earlier one changes nothing. *)
Lemma load_vms_later_duplicate l1 r1 l2 r2 l3 vms :
  qvalue r1 "server" = qvalue r2 "server" →
  qvalue r1 "vmname" = qvalue r2 "vmname" →
  load_vms (l1 ++ r1 :: l2 ++ r2 :: l3) vms = load_vms (l1 ++ r1 :: l2 ++ l3) vms.
Proof.
  intros Hs Hn. destruct (usable_same_pair r1 r2 Hs Hn) as [Hu Hk].
  rewrite !load_vms_app, !load_vms_cons, !load_vms_app, load_vms_cons.
  f_equal. destruct (usable r2) eqn:Hu2.
  - apply load_step_skip. rewrite <- Hk.
    by apply load_vms_keys, load_step_key_in.
  - by apply load_step_unusable.
Qed.

(** The first usable record of a key is the one found under that key. *)
Lemma load_vms_first_occurrence l1 r1 l2 :
  usable r1 = true →
  (∀ rec, rec ∈ l1 → usable rec = true → record_key rec ≠ record_key r1) →
  dict_get (record_key r1) (load_vms (l1 ++ r1 :: l2) []) = Some (read_vm r1).
Proof.
  intros Hu Hfirst. rewrite load_vms_app, load_vms_cons.
  apply load_vms_get.
  assert (record_key r1 ∉ (load_vms l1 []).*1) as Hfresh.
  { intros [[k t] [Hk Hin]]%list_elem_of_fmap. simpl in Hk. subst k.
    apply load_vms_elem in Hin as [Hin|(rec & ? & ? & ? & ?)].
    - by apply elem_of_nil in Hin.
    - by eapply Hfirst. }
  unfold load_step. rewrite Hu.
  apply dict_in_false in Hfresh as Hfresh'. rewrite Hfresh'. simpl.
  rewrite dict_get_app_r by done. simpl. by rewrite decide_True.
Qed.

Lemma read_vm_lookup rec name default_value :
  VBOX_VM_SETTINGS !! name = Some default_value →
  read_vm rec !! name
  = Some (qvalue_typed convert rec name default_value (VBOX_VM_SETTING_TYPES name)).
Proof. intros H. unfold read_vm. rewrite map_lookup_imap, H. done. Qed.

Lemma read_vm_dom rec : dom (read_vm rec) = dom VBOX_VM_SETTINGS.
Proof.
  apply set_eq. intros name. rewrite !elem_of_dom.
  unfold read_vm. rewrite map_lookup_imap.
  destruct (VBOX_VM_SETTINGS !! name); simpl; split; intros [? ?]; eauto; done.
Qed.

(** C5, amended: when the array holds two records with the same
    [(server, vmname)] pair, hence the same key, loading it into the empty
    registry of [__init__] gives a registry whose keys are pairwise
    different, and the registry is the one the array without the later
    record gives.  When moreover the [vmname] and the [server] of the pair
    are truthy and no usable record before the first record of the pair has
    its key, the template under the key is the one read from that first
    record: it has the settings of [VBOX_VM_SETTINGS], each with the
    converted value of the first record, or the converted default where the
    record has none. *)
Theorem load_duplicates_first_wins w l1 r1 l2 r2 l3 :
  _virtualbox_vms (self w) = [] →
  qsettings w = l1 ++ r1 :: l2 ++ r2 :: l3 →
  qvalue r1 "server" = qvalue r2 "server" →
  qvalue r1 "vmname" = qvalue r2 "vmname" →
  let vms := _virtualbox_vms (self (exec _loadVirtualBoxVMs w)) in
  NoDup (dict_keys vms)
  ∧ vms = _virtualbox_vms (self (exec _loadVirtualBoxVMs
            (with_qsettings (l1 ++ r1 :: l2 ++ l3) w)))
  ∧ (usable r1 = true →
     (∀ rec, rec ∈ l1 → usable rec = true → record_key rec ≠ record_key r1) →
     ∃ info,
       dict_get (record_key r1) vms = Some info
       ∧ dom info = dom VBOX_VM_SETTINGS
       ∧ ∀ name default_value, VBOX_VM_SETTINGS !! name = Some default_value →
           info !! name
           = Some (convert (VBOX_VM_SETTING_TYPES name)
                     (default default_value (r1 !! name)))).
Proof.
  intros Hinit Hq Hs Hn vms. subst vms.
  rewrite !_loadVirtualBoxVMs_vms. simpl. rewrite Hinit, Hq.
  split; [|split].
  - apply load_vms_NoDup. simpl. apply NoDup_nil_2.
  - by apply load_vms_later_duplicate.
  - intros Hu Hfirst. exists (read_vm r1).
    split; [by apply load_vms_first_occurrence|].
    split; [apply read_vm_dom|].
    intros name default_value Hd. by rewrite (read_vm_lookup _ _ _ Hd).
Qed.

(** The stored field of a usable record, once converted to [str]. *)
Lemma read_vm_truthy_str rec name :
  is_Some (VBOX_VM_SETTINGS !! name) →
  VBOX_VM_SETTING_TYPES name = TStr →
  (∀ v, truthy v = true → ∃ s, convert TStr v = VStr s ∧ s ≠ "") →
  truthy (qvalue rec name) = true →
  ∃ s, read_vm rec !! name = Some (VStr s) ∧ s ≠ "".
Proof.
  intros [d Hd] Hty Hconv Ht.
  rewrite (read_vm_lookup _ _ _ Hd), Hty. unfold qvalue_typed.
  unfold qvalue in Ht. destruct (rec !! name) as [v|]; simpl in *; [|done].
  destruct (Hconv v Ht) as (s & -> & ?). by exists s.
Qed.

(** C10: a record whose [vmname] or [server] is missing or falsy is
    skipped without a trace: the registry is the one the array without
    these records gives; what is in the registry after the load was there
    before or was read from a record with a truthy [vmname] and a truthy
    [server]; and where the table of settings holds [vmname] and [server]
    as [str] settings, and the conversion to [str] turns truthy values into
    non-empty strings, each template loaded into the empty registry of
    [__init__] has a non-empty [vmname] and a non-empty [server]. *)
Theorem load_discards_falsy_records w :
  let vms := _virtualbox_vms (self (exec _loadVirtualBoxVMs w)) in
  vms = _virtualbox_vms (self (exec _loadVirtualBoxVMs
          (with_qsettings (filter (λ rec, usable rec = true) (qsettings w)) w)))
  ∧ (∀ k t, (k, t) ∈ vms →
       (k, t) ∈ _virtualbox_vms (self w)
       ∨ ∃ rec, rec ∈ qsettings w
           ∧ truthy (qvalue rec "vmname") = true
           ∧ truthy (qvalue rec "server") = true
           ∧ k = record_key rec ∧ t = read_vm rec)
  ∧ (is_Some (VBOX_VM_SETTINGS !! "vmname") →
     is_Some (VBOX_VM_SETTINGS !! "server") →
     VBOX_VM_SETTING_TYPES "vmname" = TStr →
     VBOX_VM_SETTING_TYPES "server" = TStr →
     (∀ v, truthy v = true → ∃ s, convert TStr v = VStr s ∧ s ≠ "") →
     _virtualbox_vms (self w) = [] →
     ∀ k t, (k, t) ∈ vms →
       ∃ vmname server,
         t !! "vmname" = Some (VStr vmname) ∧ vmname ≠ ""
         ∧ t !! "server" = Some (VStr server) ∧ server ≠ "").
Proof.
  intros vms. subst vms. rewrite !_loadVirtualBoxVMs_vms. simpl.
  assert (∀ k t, (k, t) ∈ load_vms (qsettings w) (_virtualbox_vms (self w)) →
       (k, t) ∈ _virtualbox_vms (self w)
       ∨ ∃ rec, rec ∈ qsettings w
           ∧ truthy (qvalue rec "vmname") = true
           ∧ truthy (qvalue rec "server") = true
           ∧ k = record_key rec ∧ t = read_vm rec) as Hfrom.
  { intros k t [?|(rec & ? & Hu & ? & ?)]%load_vms_elem; [by left|].
    right. exists rec. apply andb_true_iff in Hu as [? ?]. done. }
  split; [apply load_vms_filter_usable|]. split; [done|].
  intros Hvm Hsrv Htv Hts Hconv Hinit k t Hin.
  apply Hfrom in Hin as [Hin|(rec & _ & Hn & Hs & _ & ->)].
  { rewrite Hinit in Hin. by apply elem_of_nil in Hin. }
  destruct (read_vm_truthy_str rec "vmname" Hvm Htv Hconv Hn) as (vmname & ? & ?).
  destruct (read_vm_truthy_str rec "server" Hsrv Hts Hconv Hs) as (server & ? & ?).
  by exists vmname, server.
Qed.
End LoadClaims.

(** ** Saving and loading again *)

Section RoundTrip.
Variable VBOX_VM_SETTINGS : settings_dict.
Variable VBOX_VM_SETTING_TYPES : string → vtype.
Variable convert : vtype → value → value.

Local Abbreviation load_vms := (load_vms VBOX_VM_SETTINGS VBOX_VM_SETTING_TYPES convert).
Local Abbreviation read_vm := (read_vm VBOX_VM_SETTINGS VBOX_VM_SETTING_TYPES convert).
Local Abbreviation load_step := (load_step VBOX_VM_SETTINGS VBOX_VM_SETTING_TYPES convert).
Local Abbreviation persistable := (persistable VBOX_VM_SETTINGS VBOX_VM_SETTING_TYPES).
Local Abbreviation init_virtualbox_vms :=
  (init_virtualbox_vms VBOX_VM_SETTINGS VBOX_VM_SETTING_TYPES convert).

(** Converting a value to the type it already has gives the value. *)
Hypothesis convert_same_type : ∀ ty v, has_type v ty = true → convert ty v = v.

Lemma persistable_inv key vbox_vm :
  persistable key vbox_vm = true →
  record_key vbox_vm = key ∧ usable vbox_vm = true
  ∧ dom vbox_vm = dom VBOX_VM_SETTINGS
  ∧ map_Forall (λ name v, has_type v (VBOX_VM_SETTING_TYPES name) = true) vbox_vm.
Proof.
  unfold persistable. rewrite !andb_true_iff, !bool_decide_eq_true. tauto.
Qed.

(** Reading back a record that holds a typed template gives the template. *)
Lemma read_vm_persistable key vbox_vm :
  persistable key vbox_vm = true → read_vm vbox_vm = vbox_vm.
Proof.
  intros (_ & _ & Hdom & Hty)%persistable_inv.
  apply map_eq. intros name. unfold read_vm. rewrite map_lookup_imap.
  destruct (vbox_vm !! name) as [v|] eqn:Hv.
  - assert (is_Some (VBOX_VM_SETTINGS !! name)) as [d Hd].
    { apply elem_of_dom. rewrite <- Hdom. apply elem_of_dom. eauto. }
    rewrite Hd. simpl. unfold qvalue_typed. rewrite Hv. simpl.
    f_equal. apply convert_same_type. by apply (Hty name).
  - assert (VBOX_VM_SETTINGS !! name = None) as ->; [|done].
    apply not_elem_of_dom. rewrite <- Hdom. by apply not_elem_of_dom.
Qed.

Lemma load_vms_persistable vms' vms :
  NoDup (vms ++ vms').*1 →
  Forall (λ kv, persistable kv.1 kv.2 = true) vms' →
  load_vms vms'.*2 vms = vms ++ vms'.
Proof.
  revert vms. induction vms' as [|[key vbox_vm] vms' IH]; intros vms Hnd Hall.
  { simpl. by rewrite app_nil_r. }
  apply Forall_cons in Hall as [Hp Hall]. simpl in Hp.
  rewrite fmap_cons, load_vms_cons. simpl.
  pose proof (persistable_inv _ _ Hp) as (Hkey & Hu & _).
  assert (key ∉ vms.*1) as Hfresh.
  { rewrite fmap_app in Hnd. apply NoDup_app in Hnd as (_ & Hdisj & _).
    intros Hin. apply (Hdisj key Hin). simpl. left. }
  unfold load_step. rewrite Hu, Hkey.
  apply dict_in_false in Hfresh as ->. simpl.
  rewrite (read_vm_persistable _ _ Hp).
  rewrite (cons_middle (key, vbox_vm) vms vms'), app_assoc in Hnd |- *.
  by apply IH.
Qed.

(** C6, amended: for a registry whose keys are pairwise different and
    whose templates are all persistable (each under the key of line 86,
    with a truthy [vmname] and [server], with the settings of
    [VBOX_VM_SETTINGS] and values of the types of [VBOX_VM_SETTING_TYPES]),
    [setVirtualBoxVMs] followed by the load of a new module instance gives
    the same registry, keys, values and order, and the array holds the
    templates of the registry and nothing else. *)
Theorem save_then_load_persistable (new_virtualbox_vms : list (string * settings_dict))
    (w : World) :
  NoDup (dict_keys new_virtualbox_vms) →
  Forall (λ kv, persistable kv.1 kv.2 = true) new_virtualbox_vms →
  let m := setVirtualBoxVMs new_virtualbox_vms;; init_virtualbox_vms;; virtualBoxVMs in
  (m w).1 = Ok new_virtualbox_vms
  ∧ qsettings (exec m w) = dict_values new_virtualbox_vms.
Proof.
  intros Hnd Hall m.
  pose proof (_saveVirtualBoxVMs_array
    (with_self (set_virtualbox_vms new_virtualbox_vms (self w)) w)) as Hsave.
  unfold exec in *. subst m.
  unfold setVirtualBoxVMs, init_virtualbox_vms, virtualBoxVMs, _loadVirtualBoxVMs.
  unfold mbind, M_bind, mret, M_ret, get_self, put_self. simpl in *.
  rewrite Hsave. rewrite (load_vms_persistable _ []) by done. done.
Qed.
End RoundTrip.

(** ** [setSettings] *)

(** C7: [setSettings] overlays the update on the module settings: a name of
    the update gets the value of the update, every other name keeps the value
    it had; nothing else of the module changes, and the merged settings are
    what is handed to [saveSettings]. *)
Theorem setSettings_overlays (settings : settings_dict) (w : World) :
  let w' := exec (setSettings settings) w in
  (setSettings settings w).1 = Ok ()
  ∧ (∀ name, _settings (self w') !! name
       = match settings !! name with
         | Some v => Some v
         | None => _settings (self w) !! name
         end)
  ∧ _virtualbox_vms (self w') = _virtualbox_vms (self w)
  ∧ _nodes (self w') = _nodes (self w)
  ∧ _working_dir (self w') = _working_dir (self w)
  ∧ qsettings w' = qsettings w
  ∧ calls w' = calls w ++ [SaveSettings "VirtualBox" (_settings (self w'))].
Proof.
  simpl. repeat split.
  intros name. unfold exec. simpl. rewrite lookup_union.
  destruct (settings !! name), (_settings (self w) !! name); done.
Qed.

(** ** [setupNode]: choosing the template *)

Section Selection.
Implicit Types (vms items : list (string * settings_dict)) (info : settings_dict)
  (node : Node) (w : World) (s : Server).

Lemma py_eq_str (node_name : string) v :
  py_eq (VStr node_name) v = true ↔ v = VStr node_name.
Proof.
  destruct v; simpl; try (split; [done|discriminate]).
  rewrite bool_decide_eq_true. split; congruence.
Qed.

Lemma py_eq_str_r v (t : string) : py_eq v (VStr t) = bool_decide (v = VStr t).
Proof.
  destruct v as [|u|b|n]; simpl; try done.
  destruct (decide (u = t)) as [->|Hne].
  - by rewrite !bool_decide_eq_true_2.
  - rewrite !bool_decide_eq_false_2; congruence.
Qed.

Lemma is_template_inv key info :
  is_template key info = true →
  ∃ vmname server linked_base,
    info !! "vmname" = Some (VStr vmname) ∧ info !! "server" = Some (VStr server)
    ∧ info !! "linked_base" = Some (VBool linked_base)
    ∧ key = server +:+ ":" +:+ vmname.
Proof.
  unfold is_template.
  destruct (info !! "vmname") as [[]|]; try done.
  destruct (info !! "server") as [[]|]; try done.
  destruct (info !! "linked_base") as [[]|]; try done.
  rewrite bool_decide_eq_true. eauto 10.
Qed.

Lemma is_registry_inv vms :
  is_registry vms = true →
  NoDup vms.*1 ∧ ∀ key info, (key, info) ∈ vms → is_template key info = true.
Proof.
  unfold is_registry. rewrite andb_true_iff, bool_decide_eq_true.
  intros [Hall ?]. split; [done|]. intros key info Hin.
  rewrite forallb_forall in Hall. apply (Hall (key, info)).
  by apply list_elem_of_In.
Qed.

Lemma is_registry_get vms vm info :
  is_registry vms = true → dict_get vm vms = Some info →
  is_template vm info = true.
Proof.
  intros [_ Hall]%is_registry_inv Hget%dict_get_Some_elem. by apply Hall.
Qed.

Lemma template_key_given key info :
  is_template key info = true → key_given (Some key) = true.
Proof.
  intros (vmname & server & _ & _ & _ & _ & ->)%is_template_inv.
  simpl. rewrite bool_decide_eq_false_2; [done|]. by destruct server.
Qed.

(** The loop of the names leaves the key of the last template of that
    name, if there is one. *)
Lemma find_by_name_last node_name items vm :
  (∀ key info, (key, info) ∈ items → is_Some (info !! "vmname")) →
  find_by_name node_name items vm
  = Ok (from_option (λ kv, Some kv.1) vm (last (filter (named node_name) items))).
Proof.
  revert vm. induction items as [|[key info] items IH]; intros vm Hall; [done|].
  cbn [find_by_name]. destruct (Hall key info) as [v Hv]; [left|].
  unfold getitem. rewrite Hv. cbn [mbind result_bind].
  rewrite IH by (intros; eapply Hall; by right).
  f_equal. destruct (decide (named node_name (key, info))) as [Hn|Hn].
  - rewrite filter_cons_True by done. unfold named in Hn. simpl in Hn.
    assert (py_eq (VStr node_name) v = true) as -> by (apply py_eq_str; congruence).
    rewrite last_cons. by destruct (last _).
  - rewrite filter_cons_False by done.
    destruct (py_eq (VStr node_name) v) eqn:E; [|done].
    apply py_eq_str in E. subst v. done.
Qed.

Lemma server_matches_on_server info v s :
  info !! "server" = Some v → server_matches v s = on_server info s.
Proof.
  intros Hv. unfold server_matches, on_server. rewrite Hv, !py_eq_str_r.
  f_equal; [|f_equal]; apply bool_decide_ext; split; congruence.
Qed.

(** The loop of the servers collects the keys of the templates of [s]. *)
Lemma select_by_server_filter s items :
  (∀ key info, (key, info) ∈ items → is_Some (info !! "server")) →
  select_by_server s items
  = Ok (filter (λ kv, on_server kv.2 s = true) items).*1.
Proof.
  induction items as [|[key info] items IH]; intros Hall; [done|].
  cbn [select_by_server]. destruct (Hall key info) as [v Hv]; [left|].
  unfold getitem. rewrite Hv. cbn [mbind result_bind].
  rewrite IH by (intros; eapply Hall; by right). cbn [mbind result_bind snd].
  rewrite (server_matches_on_server info v s Hv). f_equal.
  destruct (on_server info s) eqn:E.
  - by rewrite filter_cons_True by done.
  - rewrite filter_cons_False; [done|]. simpl. by rewrite E.
Qed.

Lemma registry_has_vmname vms :
  is_registry vms = true →
  ∀ key info, (key, info) ∈ vms → is_Some (info !! "vmname").
Proof.
  intros [_ Hall]%is_registry_inv key info Hin.
  destruct (is_template_inv _ _ (Hall _ _ Hin)) as (? & ? & ? & -> & _). eauto.
Qed.

Lemma registry_has_server vms :
  is_registry vms = true →
  ∀ key info, (key, info) ∈ vms → is_Some (info !! "server").
Proof.
  intros [_ Hall]%is_registry_inv key info Hin.
  destruct (is_template_inv _ _ (Hall _ _ Hin)) as (? & ? & ? & _ & -> & _). eauto.
Qed.

(** Choosing the template reads the module and may open the dialog, and
    that is all it does. *)
Lemma select_vm_effects node node_name w r w' :
  select_vm node node_name w = (r, w') →
  self w' = self w ∧ qsettings w' = qsettings w ∧ getItem w' = getItem w
  ∧ (calls w' = calls w ∨ ∃ choices, calls w' = calls w ++ [InputDialog choices]).
Proof.
  unfold select_vm, mbind, M_bind, get_self, lift, raise, mret, M_ret.
  destruct (if name_given node_name then _ else _) as [vm|e]; simpl.
  2: { intros [= <- <-]. auto. }
  destruct (negb (key_given vm)); [|intros [= <- <-]; auto].
  destruct (select_by_server _ _) as [[|vm1 [|vm2 l]]|e]; simpl;
    try (intros [= <- <-]; by auto).
  unfold QInputDialog_getItem.
  destruct (getItem w _) as [selection []]; simpl;
    intros [= <- <-]; simpl; eauto 10.
Qed.
End Selection.

(** ** [setupNode]: the claims *)

Section SetupNode.
Implicit Types (vms : list (string * settings_dict)) (info : settings_dict)
  (node other_node : Node) (nodes : list Node) (w : World).

(** [setupNode], step by step. *)
Lemma setupNode_run node node_name w :
  setupNode node node_name w
  = match select_vm node node_name w with
    | (Raise e, w') => (Raise e, w')
    | (Ok vm, w') =>
        match vm_getitem (_virtualbox_vms (self w')) vm with
        | Raise e => (Raise e, w')
        | Ok info =>
            match getitem info "linked_base" with
            | Raise e => (Raise e, w')
            | Ok linked_base =>
                match (if negb (truthy linked_base)
                       then check_unused info (_nodes (self w'))
                       else Ok ()) with
                | Raise e => (Raise e, w')
                | Ok _ =>
                    match getitem info "vmname" with
                    | Raise e => (Raise e, w')
                    | Ok vmname =>
                        (Ok (), with_call
                           (NodeSetup node vmname linked_base
                              (additional_settings_for node info)) w')
                    end
                end
            end
        end
    end.
Proof.
  unfold setupNode, mbind, M_bind, get_self, lift, emit, mret, M_ret.
  destruct (select_vm node node_name w) as [[vm|e] w']; [|done].
  destruct (vm_getitem _ vm) as [info|e]; [|done].
  destruct (getitem info "linked_base") as [linked_base|e]; [|done].
  destruct (negb (truthy linked_base)); simpl.
  - destruct (check_unused _ _); [|done]. by destruct (getitem info "vmname").
  - by destruct (getitem info "vmname").
Qed.

Lemma filter_none {A} (P : A → Prop) `{!∀ x, Decision (P x)} (l : list A) :
  (∀ x, x ∈ l → ¬ P x) → filter P l = [].
Proof.
  induction l as [|x l IH]; intros Hall; [done|].
  rewrite filter_cons_False by (apply Hall; left).
  apply IH. intros y Hy. apply Hall. by right.
Qed.

(** A name no template has leaves [vm] at [None]. *)
Lemma find_by_name_unknown vms node_name :
  is_registry vms = true →
  (∀ key info, (key, info) ∈ vms → info !! "vmname" ≠ Some (VStr node_name)) →
  find_by_name node_name vms None = Ok None.
Proof.
  intros Hreg Hnone.
  rewrite find_by_name_last by exact (registry_has_vmname _ Hreg).
  rewrite filter_none; [done|]. intros [key info] Hin. exact (Hnone _ _ Hin).
Qed.

Lemma select_vm_unknown_name node node_name w :
  is_registry (_virtualbox_vms (self w)) = true →
  (∀ key info, (key, info) ∈ _virtualbox_vms (self w) →
     info !! "vmname" ≠ Some (VStr node_name)) →
  select_vm node (Some node_name) w = select_vm node None w.
Proof.
  intros Hreg Hnone. unfold select_vm, mbind, M_bind, get_self, lift.
  destruct (name_given (Some node_name)); [|done].
  simpl. by rewrite find_by_name_unknown.
Qed.

(** C2: when exactly one template of the registry has the requested name
    as its [vmname], the name loop selects the key of that template, for
    every target node, whatever its server: the servers are not compared,
    no dialog is opened, and nothing is raised. *)
Theorem requested_name_selects_template node node_name key info w :
  is_registry (_virtualbox_vms (self w)) = true →
  node_name ≠ "" →
  filter (named node_name) (_virtualbox_vms (self w)) = [(key, info)] →
  select_vm node (Some node_name) w = (Ok key, w)
  ∧ vm_getitem (_virtualbox_vms (self w)) key = Ok info.
Proof.
  intros Hreg Hname Hone.
  assert ((key, info) ∈ _virtualbox_vms (self w)) as Hin.
  { apply (list_elem_of_filter (named node_name)). rewrite Hone. left. }
  pose proof (is_registry_inv _ Hreg) as [Hnd Hall].
  split.
  - unfold select_vm, mbind, M_bind, get_self, lift. simpl.
    rewrite bool_decide_eq_false_2 by done. simpl.
    rewrite find_by_name_last by exact (registry_has_vmname _ Hreg).
    rewrite Hone. simpl.
    pose proof (template_key_given _ _ (Hall _ _ Hin)) as Hk.
    simpl in Hk. unfold key_given. simpl. by rewrite Hk.
  - unfold vm_getitem. by rewrite (dict_get_NoDup _ _ _ Hnd Hin).
Qed.

(** C9: a requested name that no template has is not an error: [setupNode]
    goes on exactly as it does without a requested name. *)
Theorem unknown_name_falls_back node node_name w :
  is_registry (_virtualbox_vms (self w)) = true →
  (∀ key info, (key, info) ∈ _virtualbox_vms (self w) →
     info !! "vmname" ≠ Some (VStr node_name)) →
  setupNode node (Some node_name) w = setupNode node None w.
Proof.
  intros Hreg Hnone. rewrite !setupNode_run.
  by rewrite select_vm_unknown_name.
Qed.

Lemma includes_suffix (before s : string) : includes s (before +:+ s).
Proof.
  exists before, "". f_equal. induction s as [|c s IH]; [done|].
  change (String c s = String c (s +:+ "")). by f_equal.
Qed.

(** C3: without a requested name, or with a name no template has, and with
    no template on the server of the target node, [setupNode] raises the
    [ModuleError] that names the host of that server, and leaves the world
    as it was. *)
Theorem no_template_on_server node node_name w :
  is_registry (_virtualbox_vms (self w)) = true →
  (∀ name, node_name = Some name →
     ∀ key info, (key, info) ∈ _virtualbox_vms (self w) →
       info !! "vmname" ≠ Some (VStr name)) →
  (∀ key info, (key, info) ∈ _virtualbox_vms (self w) →
     on_server info (node_server node) = false) →
  setupNode node node_name w
    = (Raise (NoTemplateAvailable (host (node_server node))), w)
  ∧ includes (host (node_server node))
      (message (NoTemplateAvailable (host (node_server node)))).
Proof.
  intros Hreg Hname Hserver. split; [|apply includes_suffix].
  assert (select_vm node None w
          = (Raise (NoTemplateAvailable (host (node_server node))), w)) as Hsel.
  { unfold select_vm, mbind, M_bind, get_self, lift. simpl.
    rewrite select_by_server_filter by exact (registry_has_server _ Hreg).
    rewrite filter_none; [done|].
    intros [key info] Hin. simpl. by rewrite (Hserver _ _ Hin). }
  rewrite setupNode_run. destruct node_name as [name|].
  - rewrite select_vm_unknown_name by eauto. by rewrite Hsel.
  - by rewrite Hsel.
Qed.
End SetupNode.

Section Uniqueness.
Implicit Types (vms : list (string * settings_dict)) (info : settings_dict)
  (node other_node : Node) (nodes : list Node) (w : World).

(** The test of lines 238 and 239 on a node that has a [vmname]. *)
Lemma in_use_by_eval info other_node (vmname server : string) v :
  info !! "vmname" = Some (VStr vmname) →
  info !! "server" = Some (VStr server) →
  node_settings other_node !! "vmname" = Some v →
  in_use_by info other_node
  = Ok (bool_decide (v = VStr vmname) && on_server info (node_server other_node)).
Proof.
  intros Hn Hs Hv. unfold in_use_by, getitem, on_server.
  rewrite Hv, Hn, Hs. cbn [mbind result_bind].
  rewrite !py_eq_str_r.
  destruct (bool_decide (v = VStr vmname)); [|done].
  rewrite (bool_decide_ext (Some (VStr server) = Some (VStr "local"))
             (VStr server = VStr "local")) by (split; congruence).
  rewrite (bool_decide_ext
             (Some (VStr server) = Some (VStr (host (node_server other_node))))
             (VStr server = VStr (host (node_server other_node))))
    by (split; congruence).
  destruct (bool_decide (VStr server = VStr "local")),
    (isLocal (node_server other_node)),
    (bool_decide (VStr server = VStr (host (node_server other_node)))); done.
Qed.

Lemma is_node_registry_inv nodes other_node :
  is_node_registry nodes = true → other_node ∈ nodes →
  is_Some (node_settings other_node !! "vmname").
Proof.
  unfold is_node_registry. rewrite forallb_forall.
  intros Hall Hin%list_elem_of_In. apply Hall in Hin.
  by apply bool_decide_eq_true in Hin.
Qed.

(** The loop over the nodes stops at the first node that uses the
    template. *)
Lemma check_unused_in_use info nodes other_node (vmname server : string) :
  info !! "vmname" = Some (VStr vmname) →
  info !! "server" = Some (VStr server) →
  is_node_registry nodes = true →
  other_node ∈ nodes →
  node_settings other_node !! "vmname" = Some (VStr vmname) →
  on_server info (node_server other_node) = true →
  check_unused info nodes = Raise TemplateAlreadyInUse.
Proof.
  intros Hn Hs Hnodes Hin Hother Hsrv.
  induction nodes as [|n nodes IH]; [by apply elem_of_nil in Hin|].
  destruct (is_node_registry_inv _ n Hnodes) as [v Hv]; [left|].
  cbn [check_unused]. rewrite (in_use_by_eval _ _ _ _ _ Hn Hs Hv).
  cbn [mbind result_bind].
  destruct (bool_decide (v = VStr vmname) && on_server info (node_server n)) eqn:E;
    [done|].
  apply elem_of_cons in Hin as [->|Hin].
  - rewrite Hother in Hv. injection Hv as <-.
    rewrite bool_decide_eq_true_2, Hsrv in E by done. done.
  - apply IH; [|done]. simpl in Hnodes. by apply andb_true_iff in Hnodes as [_ ?].
Qed.

Lemma setup_calls_dialog w w' :
  calls w' = calls w ∨ (∃ choices, calls w' = calls w ++ [InputDialog choices]) →
  setup_calls w' = setup_calls w.
Proof.
  unfold setup_calls. intros [->|[choices ->]]; [done|].
  rewrite filter_app, filter_cons_False, filter_nil, app_nil_r; done.
Qed.

(** C1: when the template [setupNode] resolves has a false [linked_base],
    and a node of the registry has the [vmname] of the template among its
    settings and is on the server of the template, [setupNode] raises the
    [ModuleError] of a template already in use; [node.setup] is not called,
    and the module is as it was. *)
Theorem template_already_in_use node node_name w vm w' info other_node :
  is_registry (_virtualbox_vms (self w)) = true →
  is_node_registry (_nodes (self w)) = true →
  select_vm node node_name w = (Ok vm, w') →
  dict_get vm (_virtualbox_vms (self w)) = Some info →
  info !! "linked_base" = Some (VBool false) →
  other_node ∈ _nodes (self w) →
  node_settings other_node !! "vmname" = info !! "vmname" →
  on_server info (node_server other_node) = true →
  setupNode node node_name w = (Raise TemplateAlreadyInUse, w')
  ∧ self w' = self w
  ∧ setup_calls w' = setup_calls w.
Proof.
  intros Hreg Hnodes Hsel Hget Hlb Hin Hother Hsrv.
  destruct (select_vm_effects _ _ _ _ _ Hsel) as (Hself & _ & _ & Hcalls).
  destruct (is_template_inv _ _ (is_registry_get _ _ _ Hreg Hget))
    as (vmname & server & lb & Hn & Hs & _ & _).
  split; [|split; [done|]].
  - rewrite setupNode_run, Hsel, Hself. unfold vm_getitem, getitem.
    rewrite Hget, Hlb. simpl.
    rewrite (check_unused_in_use info _ other_node vmname server); try done.
    by rewrite Hother.
  - by apply setup_calls_dialog.
Qed.

(** C4: when the template [setupNode] resolves has a true [linked_base],
    the nodes of the registry are not looked at: whatever they are,
    [setupNode] returns, and what it has done is the call of [node.setup]
    with the [vmname] of the template, [linked_clone=True] and the settings
    of the template the node declares. *)
Theorem linked_base_skips_uniqueness node node_name w vm w' info :
  is_registry (_virtualbox_vms (self w)) = true →
  select_vm node node_name w = (Ok vm, w') →
  dict_get vm (_virtualbox_vms (self w)) = Some info →
  info !! "linked_base" = Some (VBool true) →
  ∃ vmname,
    info !! "vmname" = Some (VStr vmname)
    ∧ setupNode node node_name w
      = (Ok (), with_call
           (NodeSetup node (VStr vmname) (VBool true)
              (additional_settings_for node info)) w').
Proof.
  intros Hreg Hsel Hget Hlb.
  destruct (select_vm_effects _ _ _ _ _ Hsel) as (Hself & _).
  destruct (is_template_inv _ _ (is_registry_get _ _ _ Hreg Hget))
    as (vmname & server & lb & Hn & Hs & _ & _).
  exists vmname. split; [done|].
  rewrite setupNode_run, Hsel, Hself. unfold vm_getitem, getitem.
  by rewrite Hget, Hlb, Hn.
Qed.

(** C8: whenever [setupNode] raises, the module instance and the stored
    array are what they were before the call, and the calls made are those
    made before, followed at most by the selection dialog: [node.setup] has
    not been called. *)
Theorem setupNode_failure_changes_nothing node node_name w e w' :
  setupNode node node_name w = (Raise e, w') →
  self w' = self w
  ∧ qsettings w' = qsettings w
  ∧ setup_calls w' = setup_calls w
  ∧ (calls w' = calls w ∨ ∃ choices, calls w' = calls w ++ [InputDialog choices]).
Proof.
  rewrite setupNode_run.
  destruct (select_vm node node_name w) as [r w1] eqn:Hsel.
  destruct (select_vm_effects _ _ _ _ _ Hsel) as (Hself & Hq & _ & Hcalls).
  pose proof (setup_calls_dialog _ _ Hcalls) as Hsetup.
  destruct r as [vm|e1]; [|by intros [= <- <-]].
  destruct (vm_getitem _ vm) as [info|e1]; [|by intros [= <- <-]].
  destruct (getitem info "linked_base") as [lb|e1]; [|by intros [= <- <-]].
  destruct (if negb (truthy lb) then _ else _) as [[]|e1]; [|by intros [= <- <-]].
  destruct (getitem info "vmname") as [vmname|e1]; [done|by intros [= <- <-]].
Qed.
End Uniqueness.

(** ** The concrete module *)

Section Examples.
Lemma pretty_N_go_length (x : N) (s : string) :
  String.length s ≤ String.length (pretty_N_go x s).
Proof.
  revert s. induction (N.lt_wf_0 x) as [x _ IH]; intros s.
  destruct (decide (x = 0)%N) as [->|Hx]; [by rewrite pretty_N_go_0|].
  rewrite pretty_N_go_step by lia.
  etrans; [|apply IH, N.div_lt; lia]. simpl. lia.
Qed.

Lemma pretty_positive_nonempty (p : positive) : pretty p ≠ "".
Proof.
  unfold pretty, pretty_positive, pretty, pretty_N.
  rewrite decide_False by done. rewrite pretty_N_go_step by lia.
  intros Heq.
  pose proof (pretty_N_go_length (N.pos p `div` 10)
    (String (pretty_N_char (N.pos p `mod` 10)) "")) as Hlen.
  rewrite Heq in Hlen. simpl in Hlen. lia.
Qed.

Lemma pretty_Z_nonempty (n : Z) : pretty n ≠ "".
Proof.
  destruct n as [|p|p]; [done|apply pretty_positive_nonempty|done].
Qed.

(** The conversion of the examples leaves a value of the type alone. *)
Lemma ex_convert_same_type ty v : has_type v ty = true → ex_convert ty v = v.
Proof. by destruct ty, v. Qed.

(** It turns a truthy value into a non-empty string. *)
Lemma ex_convert_truthy_str v :
  truthy v = true → ∃ s, ex_convert TStr v = VStr s ∧ s ≠ "".
Proof.
  destruct v as [|s|[]|n]; simpl; try done.
  - intros Hs%negb_true_iff%bool_decide_eq_false. by exists s.
  - intros _. by exists "true".
  - intros _. exists (pretty n). split; [done|apply pretty_Z_nonempty].
Qed.
End Examples.

(** ** The claims on the concrete module *)

Section Witnesses.
Local Abbreviation ex_load :=
  (_loadVirtualBoxVMs ex_VBOX_VM_SETTINGS ex_VBOX_VM_SETTING_TYPES ex_convert).
Local Abbreviation ex_read_vm :=
  (read_vm ex_VBOX_VM_SETTINGS ex_VBOX_VM_SETTING_TYPES ex_convert).
Local Abbreviation ex_init :=
  (init_virtualbox_vms ex_VBOX_VM_SETTINGS ex_VBOX_VM_SETTING_TYPES ex_convert).

(** A third node asks for the template the first node is bound to. *)
Lemma template_already_in_use_witness :
  setupNode (ex_node 3 ex_local "") (Some "debian") ex_world
    = (Raise TemplateAlreadyInUse, ex_world)
  ∧ self ex_world = self ex_world
  ∧ setup_calls ex_world = setup_calls ex_world.
Proof.
  apply (template_already_in_use (ex_node 3 ex_local "") (Some "debian")
           ex_world "local:debian" ex_world
           (ex_template "debian" "local" false) (ex_node 1 ex_local "debian"));
    try reflexivity.
  simpl. left.
Defined.

(** The name picks the local template for a node on a server that has no
    template at all. *)
Lemma requested_name_selects_template_witness :
  select_vm (ex_node 3 ex_elsewhere "") (Some "debian") ex_world
    = (Ok "local:debian", ex_world)
  ∧ vm_getitem (_virtualbox_vms (self ex_world)) "local:debian"
    = Ok (ex_template "debian" "local" false).
Proof.
  apply (requested_name_selects_template (ex_node 3 ex_elsewhere "") "debian"
           "local:debian" (ex_template "debian" "local" false) ex_world);
    [reflexivity | discriminate | reflexivity].
Defined.

Lemma no_template_on_server_witness :
  setupNode (ex_node 3 ex_elsewhere "") None ex_world
    = (Raise (NoTemplateAvailable "10.9.9.9"), ex_world)
  ∧ includes "10.9.9.9" (message (NoTemplateAvailable "10.9.9.9")).
Proof.
  apply (no_template_on_server (ex_node 3 ex_elsewhere "") None ex_world).
  - reflexivity.
  - discriminate.
  - intros key info Hin. simpl in Hin.
    repeat (apply elem_of_cons in Hin as [Hin|Hin];
            [injection Hin as -> ->; reflexivity|]).
    by apply elem_of_nil in Hin.
Defined.

(** The second node already runs the linked base; a third one gets it
    too. *)
Lemma linked_base_skips_uniqueness_witness :
  ∃ vmname,
    ex_template "router" "10.0.0.2" true !! "vmname" = Some (VStr vmname)
    ∧ setupNode (ex_node 3 ex_remote "") (Some "router") ex_world
      = (Ok (), with_call
           (NodeSetup (ex_node 3 ex_remote "") (VStr vmname) (VBool true)
              (additional_settings_for (ex_node 3 ex_remote "")
                 (ex_template "router" "10.0.0.2" true))) ex_world).
Proof.
  apply (linked_base_skips_uniqueness (ex_node 3 ex_remote "") (Some "router")
           ex_world "10.0.0.2:router" ex_world
           (ex_template "router" "10.0.0.2" true));
    reflexivity.
Defined.

Lemma setupNode_failure_changes_nothing_witness :
  self ex_world = self ex_world
  ∧ qsettings ex_world = qsettings ex_world
  ∧ setup_calls ex_world = setup_calls ex_world
  ∧ (calls ex_world = calls ex_world
     ∨ ∃ choices, calls ex_world = calls ex_world ++ [InputDialog choices]).
Proof.
  apply (setupNode_failure_changes_nothing (ex_node 3 ex_local "")
           (Some "debian") ex_world TemplateAlreadyInUse ex_world).
  reflexivity.
Defined.

Lemma unknown_name_falls_back_witness :
  setupNode (ex_node 3 ex_remote "") (Some "ubuntu") ex_world
  = setupNode (ex_node 3 ex_remote "") None ex_world.
Proof.
  apply (unknown_name_falls_back (ex_node 3 ex_remote "") "ubuntu" ex_world).
  - reflexivity.
  - intros key info Hin. simpl in Hin.
    repeat (apply elem_of_cons in Hin as [Hin|Hin];
            [injection Hin as -> ->; vm_compute; discriminate|]).
    by apply elem_of_nil in Hin.
Defined.

(** The second record of the array repeats the pair of the first. *)
Lemma load_duplicates_first_wins_witness :
  let vms := _virtualbox_vms (self (exec ex_load (ex_start ex_records))) in
  NoDup (dict_keys vms)
  ∧ vms = _virtualbox_vms (self (exec ex_load
            (with_qsettings
               ([] ++ ex_template "debian" "local" false
                   :: [] ++ [ex_template "" "local" false;
                             ex_template "router" "10.0.0.2" true])
               (ex_start ex_records))))
  ∧ ∃ info,
      dict_get (record_key (ex_template "debian" "local" false)) vms = Some info
      ∧ dom info = dom ex_VBOX_VM_SETTINGS
      ∧ ∀ name default_value, ex_VBOX_VM_SETTINGS !! name = Some default_value →
          info !! name
          = Some (ex_convert (ex_VBOX_VM_SETTING_TYPES name)
                    (default default_value
                       (ex_template "debian" "local" false !! name))).
Proof.
  assert (qvalue (ex_template "debian" "local" false) "server"
          = qvalue (ex_template "debian" "local" true) "server") as Hserver
    by reflexivity.
  assert (qvalue (ex_template "debian" "local" false) "vmname"
          = qvalue (ex_template "debian" "local" true) "vmname") as Hvmname
    by reflexivity.
  assert (usable (ex_template "debian" "local" false) = true) as Husable
    by reflexivity.
  pose proof (load_duplicates_first_wins ex_VBOX_VM_SETTINGS
                ex_VBOX_VM_SETTING_TYPES ex_convert (ex_start ex_records)
                [] (ex_template "debian" "local" false)
                [] (ex_template "debian" "local" true)
                [ex_template "" "local" false; ex_template "router" "10.0.0.2" true]
                eq_refl eq_refl Hserver Hvmname) as (Hnodup & Hskip & Hfirst).
  split; [exact Hnodup|]. split; [exact Hskip|].
  apply (Hfirst Husable). intros rec Hin. apply elem_of_nil in Hin. destruct Hin.
Defined.

(** C5 fails as it is stated, in two ways.  In the first array the second
    and the third record share the pair [("a", "b:c")], but the record before
    them, of another pair, has their key ["a:b:c"]: line 87 skips both, and
    the first occurrence of the pair is not retained.  In the second array
    the two records share the pair [("local", "")]: line 87 skips both for
    their empty [vmname], and nothing is retained. *)
Lemma load_loses_first_occurrence :
  record_key (ex_template "b:c" "a" false) = record_key (ex_template "c" "a:b" false)
  ∧ qvalue (ex_template "b:c" "a" false) "server"
    ≠ qvalue (ex_template "c" "a:b" false) "server"
  ∧ _virtualbox_vms (self (exec ex_load (ex_start ex_colliding_records)))
    = [("a:b:c", ex_template "c" "a:b" false)]
  ∧ _virtualbox_vms (self (exec ex_load (ex_start ex_unnamed_records))) = [].
Proof.
  split; [reflexivity|]. split; [discriminate|]. split; reflexivity.
Qed.

(** The third record of the array has an empty [vmname]. *)
Lemma load_discards_falsy_records_witness :
  let vms := _virtualbox_vms (self (exec ex_load (ex_start ex_records))) in
  vms = _virtualbox_vms (self (exec ex_load
          (with_qsettings
             (filter (λ rec, usable rec = true) (qsettings (ex_start ex_records)))
             (ex_start ex_records))))
  ∧ ∀ k t, (k, t) ∈ vms →
      ∃ vmname server,
        t !! "vmname" = Some (VStr vmname) ∧ vmname ≠ ""
        ∧ t !! "server" = Some (VStr server) ∧ server ≠ "".
Proof.
  destruct (load_discards_falsy_records ex_VBOX_VM_SETTINGS
              ex_VBOX_VM_SETTING_TYPES ex_convert (ex_start ex_records))
    as (Hfilter & _ & Hnonempty).
  split; [exact Hfilter|].
  apply Hnonempty; try reflexivity.
  - eexists. reflexivity.
  - eexists. reflexivity.
  - exact ex_convert_truthy_str.
Defined.

(** The registry of the concrete module survives the round trip. *)
Lemma save_then_load_persistable_witness :
  let m := setVirtualBoxVMs ex_vms;; ex_init;; virtualBoxVMs in
  (m ex_world).1 = Ok ex_vms
  ∧ qsettings (exec m ex_world) = dict_values ex_vms.
Proof.
  apply (save_then_load_persistable ex_VBOX_VM_SETTINGS
           ex_VBOX_VM_SETTING_TYPES ex_convert ex_convert_same_type
           ex_vms ex_world).
  - apply (bool_decide_unpack _). vm_compute. exact I.
  - repeat constructor; reflexivity.
Defined.

(** C6 fails as it is stated: a template whose [vmname] is empty is
    written by [_saveVirtualBoxVMs] and skipped by [_loadVirtualBoxVMs], so
    the registry that comes back is empty and the key ["local:"] is lost,
    although the registry follows the data model. *)
Lemma save_then_load_loses_unnamed_template :
  let m := setVirtualBoxVMs ex_unnamed_vms;; ex_init;; virtualBoxVMs in
  is_registry ex_unnamed_vms = true
  ∧ dict_keys ex_unnamed_vms = ["local:"]
  ∧ qsettings (exec m ex_world) = dict_values ex_unnamed_vms
  ∧ (m ex_world).1 = Ok []
  ∧ (m ex_world).1 ≠ Ok ex_unnamed_vms.
Proof.
  intros m.
  assert ((m ex_world).1 = Ok []) as Hrun by (reflexivity).
  split; [reflexivity|].
  split; [reflexivity|].
  split; [reflexivity|].
  split; [exact Hrun|].
  rewrite Hrun. unfold ex_unnamed_vms. intros Heq. inversion Heq.
Qed.
End Witnesses.

(** * Further properties of the module *)

(** ** The stored templates *)

Section Persistence.
Variable VBOX_VM_SETTINGS : settings_dict.
Variable VBOX_VM_SETTING_TYPES : string → vtype.
Variable convert : vtype → value → value.

Local Abbreviation load_vms := (load_vms VBOX_VM_SETTINGS VBOX_VM_SETTING_TYPES convert).
Local Abbreviation read_vm := (read_vm VBOX_VM_SETTINGS VBOX_VM_SETTING_TYPES convert).
Local Abbreviation load_step := (load_step VBOX_VM_SETTINGS VBOX_VM_SETTING_TYPES convert).
Local Abbreviation _loadVirtualBoxVMs :=
  (_loadVirtualBoxVMs VBOX_VM_SETTINGS VBOX_VM_SETTING_TYPES convert).

Implicit Types (rec : settings_dict) (records : list settings_dict)
  (vms : list (string * settings_dict)) (w : World).

(** X1: [setVirtualBoxVMs] makes the argument the registry and rewrites the
    stored array from it: whatever the array held before, it holds the
    templates of the new registry afterwards, one record per template, in
    the order of the registry; the settings and the nodes of the module are
    not touched, and nothing is raised. *)
Theorem setVirtualBoxVMs_overwrites_array (new_virtualbox_vms : list (string * settings_dict)) w :
  let w' := exec (setVirtualBoxVMs new_virtualbox_vms) w in
  (setVirtualBoxVMs new_virtualbox_vms w).1 = Ok ()
  ∧ (virtualBoxVMs w').1 = Ok new_virtualbox_vms
  ∧ qsettings w' = dict_values new_virtualbox_vms
  ∧ length (qsettings w') = length new_virtualbox_vms
  ∧ _settings (self w') = _settings (self w)
  ∧ _nodes (self w') = _nodes (self w)
  ∧ calls w' = calls w.
Proof.
  intros w'.
  pose proof (_saveVirtualBoxVMs_array
    (with_self (set_virtualbox_vms new_virtualbox_vms (self w)) w)) as Hsave.
  assert (qsettings w' = dict_values new_virtualbox_vms) as Hq by exact Hsave.
  repeat split; try done.
  rewrite Hq. unfold dict_values. by rewrite length_fmap.
Qed.

Lemma load_vms_usable_keys records vms rec :
  rec ∈ records → usable rec = true →
  record_key rec ∈ (load_vms records vms).*1.
Proof.
  intros [l1 [l2 ->]]%list_elem_of_split Hu.
  rewrite load_vms_app, load_vms_cons.
  by apply load_vms_keys, load_step_key_in.
Qed.

Lemma load_vms_nothing_new records vms :
  (∀ rec, rec ∈ records → usable rec = true → record_key rec ∈ vms.*1) →
  load_vms records vms = vms.
Proof.
  induction records as [|rec records IH]; intros Hall; [done|].
  rewrite load_vms_cons.
  assert (load_step rec vms = vms) as ->.
  { destruct (usable rec) eqn:Hu.
    - apply load_step_skip, Hall; [left|done].
    - by apply load_step_unusable. }
  apply IH. intros r Hr. apply Hall. by right.
Qed.

(** X2: [_loadVirtualBoxVMs] is idempotent: a second load of the same array
    adds nothing and changes nothing. *)
Theorem load_twice_is_load_once w :
  exec _loadVirtualBoxVMs (exec _loadVirtualBoxVMs w) = exec _loadVirtualBoxVMs w.
Proof.
  unfold exec, _loadVirtualBoxVMs, with_self, set_virtualbox_vms. simpl.
  rewrite load_vms_nothing_new; [done|].
  intros rec Hin Hu. by apply load_vms_usable_keys.
Qed.
Lemma load_vms_prefix records vms : vms `prefix_of` load_vms records vms.
Proof.
  revert vms. induction records as [|rec records IH]; intros vms; [done|].
  rewrite load_vms_cons. etrans; [|apply IH].
  unfold load_step. case_match; [by apply prefix_app_r|done].
Qed.

(** X3: a load never replaces, removes or moves a template that is already
    in the registry: the registry before the load is a prefix of the registry
    after it, so a key that was bound stays bound to the same template, and
    the settings, the nodes and the stored array are left alone. *)
Theorem load_keeps_registered_templates w :
  let w' := exec _loadVirtualBoxVMs w in
  _virtualbox_vms (self w) `prefix_of` _virtualbox_vms (self w')
  ∧ (∀ key info, dict_get key (_virtualbox_vms (self w)) = Some info →
       dict_get key (_virtualbox_vms (self w')) = Some info)
  ∧ _settings (self w') = _settings (self w)
  ∧ _nodes (self w') = _nodes (self w)
  ∧ qsettings w' = qsettings w
  ∧ calls w' = calls w.
Proof.
  intros w'. split; [apply load_vms_prefix|]. split; [|done].
  intros key info Hget. by apply load_vms_get.
Qed.

(** X4: a template that comes from the stored array has exactly the settings
    of [VBOX_VM_SETTINGS]: a field of the record that the table does not name
    is dropped, a setting the record lacks gets the converted default, and a
    setting the record has gets its converted value. *)
Theorem loaded_template_follows_schema w key info :
  _virtualbox_vms (self w) = [] →
  (key, info) ∈ _virtualbox_vms (self (exec _loadVirtualBoxVMs w)) →
  dom info = dom VBOX_VM_SETTINGS
  ∧ ∃ rec, rec ∈ qsettings w ∧ key = record_key rec
      ∧ ∀ name default_value, VBOX_VM_SETTINGS !! name = Some default_value →
          info !! name
          = Some (convert (VBOX_VM_SETTING_TYPES name)
                    (default default_value (rec !! name))).
Proof.
  intros Hinit Hin. rewrite _loadVirtualBoxVMs_vms, Hinit in Hin.
  apply load_vms_elem in Hin as [Hin|(rec & Hrec & _ & -> & ->)].
  { by apply elem_of_nil in Hin. }
  split; [apply read_vm_dom|]. exists rec. split; [done|]. split; [done|].
  intros name default_value Hd.
  by rewrite (read_vm_lookup _ _ _ _ _ _ Hd).
Qed.
End Persistence.

(** ** The module settings and the node registry *)

Section Registries.
Implicit Types (node : Node) (l : list Node) (w : World).

(** X5: two calls of [setSettings] leave the settings of one call with the
    two updates merged, the later update on top; [settings] returns them, and
    each call has handed its own merged settings to [saveSettings]. *)
Theorem setSettings_twice (update1 update2 : settings_dict) w :
  let w' := exec (setSettings update1;; setSettings update2) w in
  (settings w').1 = Ok (_settings (self (exec (setSettings (update2 ∪ update1)) w)))
  ∧ _settings (self w') = update2 ∪ update1 ∪ _settings (self w)
  ∧ calls w'
    = calls w ++ [SaveSettings "VirtualBox" (update1 ∪ _settings (self w));
                  SaveSettings "VirtualBox" (_settings (self w'))].
Proof.
  intros w'. unfold w', exec. simpl.
  rewrite <- (assoc_L (∪)), <- app_assoc. done.
Qed.

Lemma list_remove_elem node l : node ∈ l → node :: list_remove node l ≡ₚ l.
Proof.
  induction l as [|n l IH]; [by intros ?%elem_of_nil|].
  intros Hin. simpl. case_decide as Hn; [by subst|].
  apply elem_of_cons in Hin as [?|Hin]; [done|].
  rewrite Permutation_swap. by rewrite IH.
Qed.

Lemma list_remove_sublist node l : list_remove node l `sublist_of` l.
Proof.
  induction l as [|n l IH]; [done|]. simpl. case_decide.
  - by apply sublist_cons.
  - by apply sublist_skip.
Qed.

Lemma list_remove_last node l : node ∉ l → list_remove node (l ++ [node]) = l.
Proof.
  induction l as [|n l IH]; simpl.
  - intros _. by rewrite decide_True.
  - rewrite not_elem_of_cons. intros [? ?].
    rewrite decide_False by done. by rewrite IH.
Qed.

(** X6: [removeNode] never raises, also for a node that is not registered
    (the test of line 152 keeps [list.remove] from raising [ValueError]): a
    registered node loses exactly one occurrence, the order of the others is
    kept, and an unregistered node leaves the registry as it is. *)
Theorem removeNode_removes_one_occurrence node w :
  let w' := exec (removeNode node) w in
  (removeNode node w).1 = Ok ()
  ∧ (node ∈ _nodes (self w) →
       node :: _nodes (self w') ≡ₚ _nodes (self w)
       ∧ _nodes (self w') `sublist_of` _nodes (self w))
  ∧ (node ∉ _nodes (self w) → _nodes (self w') = _nodes (self w))
  ∧ _virtualbox_vms (self w') = _virtualbox_vms (self w)
  ∧ _settings (self w') = _settings (self w).
Proof.
  intros w'. unfold w', exec, removeNode, mbind, M_bind, get_self, put_self,
    mret, M_ret.
  destruct (bool_decide (node ∈ _nodes (self w))) eqn:E; simpl.
  - apply bool_decide_eq_true in E. split; [done|]. split; [|done].
    intros _. split; [by apply list_remove_elem|apply list_remove_sublist].
  - apply bool_decide_eq_false in E. done.
Qed.

(** X7: registering a node that is not yet registered and removing it again
    gives the node registry back as it was. *)
Theorem addNode_then_removeNode node w :
  node ∉ _nodes (self w) →
  let w' := exec (addNode node;; removeNode node) w in
  ((addNode node;; removeNode node) w).1 = Ok ()
  ∧ _nodes (self w') = _nodes (self w)
  ∧ _virtualbox_vms (self w') = _virtualbox_vms (self w)
  ∧ _settings (self w') = _settings (self w).
Proof.
  intros Hfresh w'. unfold w', exec, addNode, removeNode, mbind, M_bind,
    get_self, put_self, mret, M_ret. simpl.
  rewrite bool_decide_eq_true_2 by (apply elem_of_app; right; left). simpl.
  by rewrite list_remove_last.
Qed.

Lemma list_remove_keeps_second node l :
  node ∈ list_remove node (l ++ [node; node]).
Proof.
  induction l as [|n l IH]; simpl.
  - rewrite decide_True by done. left.
  - case_decide; [|by right].
    apply elem_of_app. right. left.
Qed.

(** X8: [addNode] keeps no set: a node that was registered twice is still
    registered after one [removeNode], so it takes as many removals as
    registrations to free the template it is bound to. *)
Theorem addNode_twice_removeNode_once node w :
  let w' := exec (addNode node;; addNode node;; removeNode node) w in
  ((addNode node;; addNode node;; removeNode node) w).1 = Ok ()
  ∧ node ∈ _nodes (self w')
  ∧ length (_nodes (self w')) = S (length (_nodes (self w))).
Proof.
  intros w'. unfold w', exec, addNode, removeNode, mbind, M_bind,
    get_self, put_self, mret, M_ret. simpl.
  rewrite bool_decide_eq_true_2
    by (rewrite <- app_assoc; apply elem_of_app; right; left).
  simpl. rewrite <- app_assoc. simpl.
  split; [done|]. split; [apply list_remove_keeps_second|].
  assert (node ∈ _nodes (self w) ++ [node; node]) as Hin
    by (apply elem_of_app; right; left).
  pose proof (Permutation_length (list_remove_elem node _ Hin)) as Hlen.
  rewrite length_app in Hlen. simpl in Hlen. lia.
Qed.
End Registries.

(** ** [setupNode]: the other paths *)

Section SetupNodePaths.
Implicit Types (vms items : list (string * settings_dict)) (info : settings_dict)
  (node other_node : Node) (w : World) (s : Server).

Lemma getitem_raises info k e : getitem info k = Raise e → e = KeyError k.
Proof. unfold getitem. destruct (info !! k); [done|]. by intros [= <-]. Qed.

Lemma vm_getitem_raises vms vm e : vm_getitem vms vm = Raise e → e = KeyError vm.
Proof. unfold vm_getitem. destruct (dict_get vm vms); [done|]. by intros [= <-]. Qed.

Lemma find_by_name_raises node_name items vm e :
  find_by_name node_name items vm = Raise e → e = KeyError "vmname".
Proof.
  revert vm. induction items as [|[key info] items IH]; intros vm; [done|].
  cbn [find_by_name]. destruct (getitem info "vmname") as [v|e'] eqn:Hv.
  - cbn [mbind result_bind]. apply IH.
  - cbn [mbind result_bind]. intros [= <-]. by apply getitem_raises in Hv.
Qed.

Lemma select_by_server_raises s items e :
  select_by_server s items = Raise e → e = KeyError "server".
Proof.
  induction items as [|[key info] items IH]; [done|].
  cbn [select_by_server]. destruct (getitem info "server") as [v|e'] eqn:Hv;
    cbn [mbind result_bind].
  - destruct (select_by_server s items); cbn [mbind result_bind]; [done|].
    intros [= <-]. by apply IH.
  - intros [= <-]. by apply getitem_raises in Hv.
Qed.

(** What the choice of the template can raise. *)
Lemma select_vm_raises node node_name w e w' :
  select_vm node node_name w = (Raise e, w') →
  (e = NoTemplateAvailable (host (node_server node)) ∧ w' = w
   ∧ select_by_server (node_server node) (_virtualbox_vms (self w)) = Ok [])
  ∨ e = SelectionCancelled
  ∨ ∃ k, e = KeyError k.
Proof.
  unfold select_vm, mbind, M_bind, get_self, lift, raise, mret, M_ret.
  destruct (if name_given node_name then _ else _) as [vm|e1] eqn:Hfind; simpl.
  2: { intros [= <- <-]. right. right.
       destruct (name_given node_name); [|done].
       apply find_by_name_raises in Hfind. eauto. }
  destruct (negb (key_given vm)); [|done].
  destruct (select_by_server _ _) as [[|vm1 [|vm2 l]]|e1] eqn:Hsel; simpl.
  - intros [= <- <-]. by left.
  - done.
  - unfold QInputDialog_getItem.
    destruct (getItem w _) as [selection []]; simpl; [done|].
    intros [= <- <-]. right. by left.
  - intros [= <- <-]. right. right. apply select_by_server_raises in Hsel. eauto.
Qed.

(** The loop over the nodes raises [KeyError], or the [ModuleError] of a
    template in use at a node for which the test of lines 238 and 239 is
    true. *)
Lemma check_unused_raises info (nodes : list Node) e :
  check_unused info nodes = Raise e →
  (e = TemplateAlreadyInUse
   ∧ ∃ other_node, other_node ∈ nodes ∧ in_use_by info other_node = Ok true)
  ∨ ∃ k, e = KeyError k.
Proof.
  induction nodes as [|n nodes IH]; [done|].
  cbn [check_unused]. destruct (in_use_by info n) as [[]|e1] eqn:Huse;
    cbn [mbind result_bind].
  - intros [= <-]. left. split; [done|]. exists n. split; [left|done].
  - intros [H|H]%IH; [|by right]. left. destruct H as (-> & o & ? & ?).
    split; [done|]. exists o. split; [by right|done].
  - intros [= <-]. right. unfold in_use_by in Huse.
    destruct (getitem (node_settings n) "vmname") as [v1|e2] eqn:H1;
      cbn [mbind result_bind] in Huse.
    2: { injection Huse as <-. apply getitem_raises in H1. eauto. }
    destruct (getitem info "vmname") as [v2|e2] eqn:H2;
      cbn [mbind result_bind] in Huse.
    2: { injection Huse as <-. apply getitem_raises in H2. eauto. }
    destruct (py_eq v1 v2); [|done].
    destruct (getitem info "server") as [v3|e2] eqn:H3;
      cbn [mbind result_bind] in Huse.
    2: { injection Huse as <-. apply getitem_raises in H3. eauto. }
    by destruct (py_eq v3 (VStr "local") && isLocal (node_server n)).
Qed.

Lemma check_unused_ok info (nodes : list Node) :
  (∀ other_node, other_node ∈ nodes → in_use_by info other_node = Ok false) →
  check_unused info nodes = Ok ().
Proof.
  induction nodes as [|n nodes IH]; intros Hall; [done|].
  cbn [check_unused]. rewrite (Hall n) by left. cbn [mbind result_bind].
  apply IH. intros o Ho. apply Hall. by right.
Qed.

(** The test of lines 238 and 239, when it is true. *)
Lemma in_use_by_true info other_node :
  in_use_by info other_node = Ok true →
  ∃ v_node v_template,
    node_settings other_node !! "vmname" = Some v_node
    ∧ info !! "vmname" = Some v_template
    ∧ py_eq v_node v_template = true
    ∧ on_server info (node_server other_node) = true.
Proof.
  unfold in_use_by, getitem.
  destruct (node_settings other_node !! "vmname") as [v1|]; [|done].
  destruct (info !! "vmname") as [v2|]; [|done]. cbn [mbind result_bind].
  destruct (py_eq v1 v2) eqn:Heq; [|done].
  destruct (info !! "server") as [v3|] eqn:H3; [|done]. cbn [mbind result_bind].
  intros Huse. exists v1, v2. repeat split; try done.
  unfold on_server. rewrite H3. rewrite !py_eq_str_r in Huse.
  destruct (bool_decide (v3 = VStr "local")) eqn:E1,
    (isLocal (node_server other_node)) eqn:E2; simpl in Huse.
  - apply bool_decide_eq_true in E1 as ->.
    rewrite (bool_decide_eq_true_2 (Some (VStr "local") = Some (VStr "local")))
      by done. by rewrite orb_true_r.
  - injection Huse as Huse. apply bool_decide_eq_true in Huse as ->.
    by rewrite bool_decide_eq_true_2.
  - injection Huse as Huse. apply bool_decide_eq_true in Huse as ->.
    by rewrite bool_decide_eq_true_2.
  - injection Huse as Huse. apply bool_decide_eq_true in Huse as ->.
    by rewrite bool_decide_eq_true_2.
Qed.
(** X9: after [reset], [setupNode] does not raise the [ModuleError] of a
    template in use, whatever the registry held before and whatever template
    is chosen. *)
Theorem reset_frees_every_template node node_name w :
  ((reset;; setupNode node node_name) w).1 ≠ Raise TemplateAlreadyInUse
  ∧ _nodes (self (exec reset w)) = [].
Proof.
  split; [|done].
  change ((reset;; setupNode node node_name) w)
    with (setupNode node node_name (with_self (set_nodes [] (self w)) w)).
  rewrite setupNode_run.
  destruct (select_vm _ _ _) as [[vm|e] w1] eqn:Hsel.
  - destruct (select_vm_effects _ _ _ _ _ Hsel) as (-> & _).
    destruct (vm_getitem _ vm) as [info|e] eqn:Hget.
    2: { apply vm_getitem_raises in Hget as ->. done. }
    destruct (getitem info "linked_base") as [lb|e] eqn:Hlb.
    2: { apply getitem_raises in Hlb as ->. done. }
    simpl. destruct (negb (truthy lb)); simpl.
    + destruct (getitem info "vmname") as [v|e] eqn:Hv; [done|].
      apply getitem_raises in Hv as ->. done.
    + destruct (getitem info "vmname") as [v|e] eqn:Hv; [done|].
      apply getitem_raises in Hv as ->. done.
  - simpl. apply select_vm_raises in Hsel as [(-> & _)|[->|[k ->]]]; discriminate.
Qed.
(** The choice of the template when no name settles it. *)
Lemma select_vm_by_server node node_name w :
  is_registry (_virtualbox_vms (self w)) = true →
  (∀ name, node_name = Some name →
     ∀ key info, (key, info) ∈ _virtualbox_vms (self w) →
       info !! "vmname" ≠ Some (VStr name)) →
  select_vm node node_name w
  = match (filter (λ kv, on_server kv.2 (node_server node) = true)
             (_virtualbox_vms (self w))).*1 with
    | [] => (Raise (NoTemplateAvailable (host (node_server node))), w)
    | [vm] => (Ok vm, w)
    | selected_vms =>
        let w' := with_call (InputDialog selected_vms) w in
        if (getItem w selected_vms).2
        then (Ok (getItem w selected_vms).1, w')
        else (Raise SelectionCancelled, w')
    end.
Proof.
  intros Hreg Hname.
  assert (select_vm node node_name w = select_vm node None w) as ->.
  { destruct node_name as [name|]; [|done].
    apply select_vm_unknown_name; eauto. }
  unfold select_vm, mbind, M_bind, get_self, lift. simpl.
  rewrite select_by_server_filter by exact (registry_has_server _ Hreg).
  destruct (filter _ _).*1 as [|vm1 [|vm2 l]]; try done.
  unfold QInputDialog_getItem. by destruct (getItem w _) as [selection []].
Qed.

(** X10: without a requested name, or with a name no template has, and with
    exactly one template on the server of the target node, that template is
    chosen and no dialog is opened. *)
Theorem single_template_on_server_is_chosen node node_name key info w :
  is_registry (_virtualbox_vms (self w)) = true →
  (∀ name, node_name = Some name →
     ∀ key info, (key, info) ∈ _virtualbox_vms (self w) →
       info !! "vmname" ≠ Some (VStr name)) →
  filter (λ kv, on_server kv.2 (node_server node) = true)
    (_virtualbox_vms (self w)) = [(key, info)] →
  select_vm node node_name w = (Ok key, w)
  ∧ vm_getitem (_virtualbox_vms (self w)) key = Ok info.
Proof.
  intros Hreg Hname Hone.
  rewrite select_vm_by_server, Hone by done. split; [done|].
  pose proof (is_registry_inv _ Hreg) as [Hnd _].
  unfold vm_getitem. rewrite (dict_get_NoDup _ key info Hnd); [done|].
  apply (list_elem_of_filter (λ kv, on_server kv.2 (node_server node) = true)).
  rewrite Hone. left.
Qed.

(** X11: with several templates on the server of the target node, the dialog
    is opened once, on the keys of these templates in the order of the
    registry; the key the user accepts is the choice, and a cancelled dialog
    raises the [ModuleError] that asks for a selection, which ends
    [setupNode] without a call of [node.setup]. *)
Theorem several_templates_open_the_dialog node node_name w kv1 kv2 others :
  is_registry (_virtualbox_vms (self w)) = true →
  (∀ name, node_name = Some name →
     ∀ key info, (key, info) ∈ _virtualbox_vms (self w) →
       info !! "vmname" ≠ Some (VStr name)) →
  filter (λ kv, on_server kv.2 (node_server node) = true)
    (_virtualbox_vms (self w)) = kv1 :: kv2 :: others →
  let selected_vms := kv1.1 :: kv2.1 :: others.*1 in
  let w' := with_call (InputDialog selected_vms) w in
  (∀ selection, getItem w selected_vms = (selection, true) →
     select_vm node node_name w = (Ok selection, w'))
  ∧ (∀ selection, getItem w selected_vms = (selection, false) →
       setupNode node node_name w = (Raise SelectionCancelled, w')
       ∧ setup_calls w' = setup_calls w).
Proof.
  intros Hreg Hname Hmany selected_vms w'.
  pose proof (select_vm_by_server node node_name w Hreg Hname) as Hsel.
  rewrite Hmany in Hsel.
  change ((kv1 :: kv2 :: others).*1) with selected_vms in Hsel.
  assert (select_vm node node_name w
          = if (getItem w selected_vms).2
            then (Ok (getItem w selected_vms).1, w')
            else (Raise SelectionCancelled, w')) as Hsel' by exact Hsel.
  split; intros selection Hget; rewrite Hget in Hsel'; simpl in Hsel'.
  - exact Hsel'.
  - rewrite setupNode_run, Hsel'. split; [done|].
    apply setup_calls_dialog. right. by exists selected_vms.
Qed.

(** X12: when several templates have the requested name, the loop of the
    names runs to the end and the last of them in the order of the registry
    is the choice. *)
Theorem last_template_of_the_name_is_chosen node node_name earlier key info w :
  is_registry (_virtualbox_vms (self w)) = true →
  node_name ≠ "" →
  filter (named node_name) (_virtualbox_vms (self w)) = earlier ++ [(key, info)] →
  select_vm node (Some node_name) w = (Ok key, w)
  ∧ vm_getitem (_virtualbox_vms (self w)) key = Ok info.
Proof.
  intros Hreg Hname Hlast.
  assert ((key, info) ∈ _virtualbox_vms (self w)) as Hin.
  { apply (list_elem_of_filter (named node_name)). rewrite Hlast.
    apply elem_of_app. right. left. }
  pose proof (is_registry_inv _ Hreg) as [Hnd Hall].
  split.
  - unfold select_vm, mbind, M_bind, get_self, lift. simpl.
    rewrite bool_decide_eq_false_2 by done. simpl.
    rewrite find_by_name_last by exact (registry_has_vmname _ Hreg).
    rewrite Hlast, last_snoc. simpl.
    pose proof (template_key_given _ _ (Hall _ _ Hin)) as Hk.
    simpl in Hk. unfold key_given. simpl. by rewrite Hk.
  - unfold vm_getitem. by rewrite (dict_get_NoDup _ _ _ Hnd Hin).
Qed.
(** X13: when the chosen template has a false [linked_base] and no node of
    the registry has its [vmname] while being on its server, [setupNode]
    returns, and what it has done is the call of [node.setup] with the
    [vmname] of the template and [linked_clone=False]. *)
Theorem unused_template_is_set_up node node_name w vm w' info :
  is_registry (_virtualbox_vms (self w)) = true →
  is_node_registry (_nodes (self w)) = true →
  select_vm node node_name w = (Ok vm, w') →
  dict_get vm (_virtualbox_vms (self w)) = Some info →
  info !! "linked_base" = Some (VBool false) →
  (∀ other_node, other_node ∈ _nodes (self w) →
     node_settings other_node !! "vmname" = info !! "vmname" →
     on_server info (node_server other_node) = false) →
  ∃ vmname,
    info !! "vmname" = Some (VStr vmname)
    ∧ setupNode node node_name w
      = (Ok (), with_call
           (NodeSetup node (VStr vmname) (VBool false)
              (additional_settings_for node info)) w').
Proof.
  intros Hreg Hnodes Hsel Hget Hlb Hfree.
  destruct (select_vm_effects _ _ _ _ _ Hsel) as (Hself & _).
  destruct (is_template_inv _ _ (is_registry_get _ _ _ Hreg Hget))
    as (vmname & server & lb & Hn & Hs & _ & _).
  exists vmname. split; [done|].
  rewrite setupNode_run, Hsel, Hself. unfold vm_getitem.
  rewrite Hget. unfold getitem at 1. rewrite Hlb. simpl.
  rewrite check_unused_ok.
  { unfold getitem. by rewrite Hn. }
  intros other_node Hin.
  destruct (is_node_registry_inv _ _ Hnodes Hin) as [v Hv].
  rewrite (in_use_by_eval _ _ _ _ _ Hn Hs Hv). f_equal.
  destruct (decide (v = VStr vmname)) as [->|Hne].
  - rewrite (Hfree other_node Hin) by congruence. apply andb_false_r.
  - by rewrite bool_decide_eq_false_2.
Qed.

(** X14: a [setupNode] that returns has itself written nothing to the
    module nor to the stored array.  What it has done is one call of
    [node.setup], after the dialog if there was one, with the [vmname] and
    the [linked_base] of a template of the registry, and with settings that
    are all taken from that template and are all settings the node
    declares. *)
Theorem setupNode_success_effects node node_name w w' :
  setupNode node node_name w = (Ok (), w') →
  self w' = self w
  ∧ qsettings w' = qsettings w
  ∧ ∃ vm info vmname linked_base additional_settings,
      dict_get vm (_virtualbox_vms (self w)) = Some info
      ∧ info !! "vmname" = Some vmname
      ∧ info !! "linked_base" = Some linked_base
      ∧ additional_settings ⊆ info
      ∧ dom additional_settings ⊆ dom (node_settings node)
      ∧ setup_calls w'
        = setup_calls w
          ++ [NodeSetup node vmname linked_base additional_settings].
Proof.
  rewrite setupNode_run.
  destruct (select_vm node node_name w) as [[vm|e] w1] eqn:Hsel; [|done].
  destruct (select_vm_effects _ _ _ _ _ Hsel) as (Hself & Hq & _ & Hcalls).
  unfold vm_getitem. rewrite Hself.
  destruct (dict_get vm _) as [info|] eqn:Hget; [|done].
  unfold getitem.
  destruct (info !! "linked_base") as [lb|] eqn:Hlb; [|done].
  destruct (if negb (truthy lb) then _ else _) as [[]|e]; [|done].
  destruct (info !! "vmname") as [vmname|] eqn:Hn; [|done].
  intros [= <-]. split; [done|]. split; [done|].
  exists vm, info, vmname, lb, (additional_settings_for node info).
  split; [done|]. split; [done|]. split; [done|].
  split; [apply map_filter_subseteq|]. split.
  - intros name [v Hv]%elem_of_dom.
    apply map_lookup_filter_Some in Hv as [_ Hdecl]. by apply elem_of_dom.
  - unfold setup_calls. simpl. rewrite filter_app.
    rewrite (filter_cons_True _ (NodeSetup _ _ _ _)) by done.
    f_equal. by apply (setup_calls_dialog w w1).
Qed.

(** X15: the [ModuleError] of a template in use is only raised when the
    chosen template has a falsy [linked_base] and a node of the registry has
    a [vmname] equal to the one of the template and is on the server of the
    template. *)
Theorem template_in_use_only_when_used node node_name w w' :
  setupNode node node_name w = (Raise TemplateAlreadyInUse, w') →
  ∃ vm info linked_base other_node v_node v_template,
    select_vm node node_name w = (Ok vm, w')
    ∧ dict_get vm (_virtualbox_vms (self w)) = Some info
    ∧ info !! "linked_base" = Some linked_base ∧ truthy linked_base = false
    ∧ other_node ∈ _nodes (self w)
    ∧ node_settings other_node !! "vmname" = Some v_node
    ∧ info !! "vmname" = Some v_template
    ∧ py_eq v_node v_template = true
    ∧ on_server info (node_server other_node) = true.
Proof.
  rewrite setupNode_run.
  destruct (select_vm node node_name w) as [[vm|e] w1] eqn:Hsel.
  2: { intros [= -> <-].
       apply select_vm_raises in Hsel as [(? & _)|[?|[k ?]]]; discriminate. }
  destruct (select_vm_effects _ _ _ _ _ Hsel) as (Hself & _).
  rewrite Hself.
  destruct (vm_getitem _ vm) as [info|e] eqn:Hget.
  2: { intros [= -> <-]. by apply vm_getitem_raises in Hget. }
  destruct (getitem info "linked_base") as [lb|e] eqn:Hlb.
  2: { intros [= -> <-]. by apply getitem_raises in Hlb. }
  destruct (truthy lb) eqn:Htruthy; simpl.
  { destruct (getitem info "vmname") as [v|e] eqn:Hv; [done|].
    intros [= -> <-]. by apply getitem_raises in Hv. }
  destruct (check_unused info _) as [[]|e] eqn:Hcheck.
  { destruct (getitem info "vmname") as [v|e] eqn:Hv; [done|].
    intros [= -> <-]. by apply getitem_raises in Hv. }
  intros [= -> <-].
  apply check_unused_raises in Hcheck as [(_ & other_node & Hin & Huse)|[k ?]];
    [|done].
  destruct (in_use_by_true _ _ Huse) as (v_node & v_template & ? & ? & ? & ?).
  exists vm, info, lb, other_node, v_node, v_template.
  unfold vm_getitem in Hget. destruct (dict_get vm _) as [info'|] eqn:Hd; [|done].
  injection Hget as ->.
  unfold getitem in Hlb. destruct (info !! "linked_base") as [lb'|] eqn:Hl; [|done].
  injection Hlb as ->. done.
Qed.

Lemma select_by_server_none s items :
  select_by_server s items = Ok [] →
  ∀ key info, (key, info) ∈ items →
    is_Some (info !! "server") ∧ on_server info s = false.
Proof.
  induction items as [|[k i] items IH]; [by intros _ ?? ?%elem_of_nil|].
  cbn [select_by_server]. unfold getitem.
  destruct (i !! "server") as [v|] eqn:Hv; [|done]. cbn [mbind result_bind].
  destruct (select_by_server s items) as [selected|]; [|done].
  cbn [mbind result_bind].
  rewrite (server_matches_on_server i v s Hv).
  destruct (on_server i s) eqn:Hon; [done|]. intros [= ->].
  intros key info [[= -> ->]|Hin]%elem_of_cons.
  - split; [by rewrite Hv|done].
  - exact (IH eq_refl key info Hin).
Qed.

(** X16: the [ModuleError] of a missing template is only raised when no
    template of the registry is on the server of the target node; it names
    the host of that server, and nothing has been done when it is raised:
    no dialog, no call of [node.setup]. *)
Theorem no_template_error_only_without_template node node_name w h w' :
  setupNode node node_name w = (Raise (NoTemplateAvailable h), w') →
  h = host (node_server node)
  ∧ w' = w
  ∧ ∀ key info, (key, info) ∈ _virtualbox_vms (self w) →
      on_server info (node_server node) = false.
Proof.
  rewrite setupNode_run.
  destruct (select_vm node node_name w) as [[vm|e] w1] eqn:Hsel.
  - destruct (vm_getitem _ vm) as [info|e] eqn:Hget.
    2: { intros [= -> <-]. by apply vm_getitem_raises in Hget. }
    destruct (getitem info "linked_base") as [lb|e] eqn:Hlb.
    2: { intros [= -> <-]. by apply getitem_raises in Hlb. }
    destruct (if negb (truthy lb) then _ else _) as [[]|e] eqn:Hcheck.
    + destruct (getitem info "vmname") as [v|e] eqn:Hv; [done|].
      intros [= -> <-]. by apply getitem_raises in Hv.
    + intros [= -> <-]. destruct (negb (truthy lb)); [|done].
      apply check_unused_raises in Hcheck as [(? & _)|[k ?]]; discriminate.
  - intros [= -> <-].
    apply select_vm_raises in Hsel as [(Heq & -> & Hnone)|[?|[k ?]]];
      [|discriminate..].
    injection Heq as Heq. split; [|split; [done|]].
    + by simplify_eq.
    + intros key info Hin. by apply (select_by_server_none _ _ Hnone key).
Qed.
End SetupNodePaths.

(** ** [nodes] *)

Section NodesList.
Variable VirtualBoxVM_name : string.

Implicit Types (vbox_vm info : settings_dict) (vms : list settings_dict)
  (categories : list value) (w : World).

Local Abbreviation node_entry := (node_entry VirtualBoxVM_name).
Local Abbreviation nodes_loop := (nodes_loop VirtualBoxVM_name).
Local Abbreviation nodes := (nodes VirtualBoxVM_name).

(** The entry of a template that has the five settings line 288 to 294
    read: the second ["categories"] has replaced the first. *)
Lemma node_entry_ok categories vbox_vm name server default_symbol hover_symbol category :
  vbox_vm !! "vmname" = Some name →
  vbox_vm !! "server" = Some server →
  vbox_vm !! "default_symbol" = Some default_symbol →
  vbox_vm !! "hover_symbol" = Some hover_symbol →
  vbox_vm !! "category" = Some category →
  node_entry categories vbox_vm
  = Ok (<["categories" := PList [category]]>
          (<["hover_symbol" := PValue hover_symbol]>
             (<["default_symbol" := PValue default_symbol]>
                (<["server" := PValue server]>
                   (<["name" := PValue name]>
                      (<["class" := PValue (VStr VirtualBoxVM_name)]> ∅)))))).
Proof.
  intros H1 H2 H3 H4 H5. unfold node_entry, getitem.
  rewrite H1, H2, H3, H4, H5. cbn [mbind result_bind]. apply (f_equal Ok).
  apply map_eq. intros k.
  destruct (decide (k = "categories")) as [->|?]; [by rewrite !lookup_insert_eq|].
  rewrite !(lookup_insert_ne _ "categories") by done.
  destruct (decide (k = "hover_symbol")) as [->|?]; [by rewrite !lookup_insert_eq|].
  rewrite !(lookup_insert_ne _ "hover_symbol") by done.
  destruct (decide (k = "default_symbol")) as [->|?]; [by rewrite !lookup_insert_eq|].
  rewrite !(lookup_insert_ne _ "default_symbol") by done.
  by rewrite !(lookup_insert_ne _ "categories") by done.
Qed.

Lemma node_entry_raises categories vbox_vm e :
  node_entry categories vbox_vm = Raise e →
  ∃ k, e = KeyError k ∧ vbox_vm !! k = None
       ∧ k ∈ ["vmname"; "server"; "default_symbol"; "hover_symbol"; "category"].
Proof.
  unfold node_entry, getitem.
  destruct (vbox_vm !! "vmname") eqn:H1; cbn [mbind result_bind].
  2: { intros [= <-]. eexists. split; [done|]. split; [done|]. set_solver. }
  destruct (vbox_vm !! "server") eqn:H2; cbn [mbind result_bind].
  2: { intros [= <-]. eexists. split; [done|]. split; [done|]. set_solver. }
  destruct (vbox_vm !! "default_symbol") eqn:H3; cbn [mbind result_bind].
  2: { intros [= <-]. eexists. split; [done|]. split; [done|]. set_solver. }
  destruct (vbox_vm !! "hover_symbol") eqn:H4; cbn [mbind result_bind].
  2: { intros [= <-]. eexists. split; [done|]. split; [done|]. set_solver. }
  destruct (vbox_vm !! "category") eqn:H5; cbn [mbind result_bind]; [done|].
  intros [= <-]. eexists. split; [done|]. split; [done|]. set_solver.
Qed.

(** The list [VirtualBoxVM.categories()] gives does not reach the entry. *)
Lemma node_entry_categories categories categories' vbox_vm :
  node_entry categories vbox_vm = node_entry categories' vbox_vm.
Proof.
  destruct (vbox_vm !! "vmname") as [v1|] eqn:H1;
    [|by unfold node_entry, getitem; rewrite H1].
  destruct (vbox_vm !! "server") as [v2|] eqn:H2;
    [|by unfold node_entry, getitem; rewrite H1, H2].
  destruct (vbox_vm !! "default_symbol") as [v3|] eqn:H3;
    [|by unfold node_entry, getitem; rewrite H1, H2, H3].
  destruct (vbox_vm !! "hover_symbol") as [v4|] eqn:H4;
    [|by unfold node_entry, getitem; rewrite H1, H2, H3, H4].
  destruct (vbox_vm !! "category") as [v5|] eqn:H5;
    [|by unfold node_entry, getitem; rewrite H1, H2, H3, H4, H5].
  by rewrite !(node_entry_ok _ _ v1 v2 v3 v4 v5).
Qed.

Lemma nodes_loop_categories categories categories' vms acc :
  nodes_loop categories vms acc = nodes_loop categories' vms acc.
Proof.
  revert acc. induction vms as [|vbox_vm vms IH]; intros acc; [done|].
  cbn [nodes_loop]. rewrite (node_entry_categories categories categories').
  destruct (node_entry categories' vbox_vm); cbn [mbind result_bind]; [|done].
  apply IH.
Qed.

(** X17: what [VirtualBoxVM.categories()] returns never shows in the result
    of [nodes]: the key ["categories"] is written a second time in the same
    dictionary display, with the one-element list of the category of the
    template, and [nodes] changes nothing in the module. *)
Theorem nodes_ignores_class_categories categories categories' w :
  nodes categories w = nodes categories' w
  ∧ exec (nodes categories) w = w.
Proof.
  split; [|done].
  unfold nodes, mbind, M_bind, get_self, lift.
  by rewrite (nodes_loop_categories categories categories').
Qed.

Lemma nodes_loop_app categories vms acc :
  nodes_loop categories vms acc
  = entries ← nodes_loop categories vms []; Ok (acc ++ entries).
Proof.
  revert acc. induction vms as [|vbox_vm vms IH]; intros acc.
  { simpl. by rewrite app_nil_r. }
  cbn [nodes_loop]. destruct (node_entry categories vbox_vm) as [entry|e];
    cbn [mbind result_bind]; [|done].
  rewrite (IH (acc ++ [entry])), (IH ([] ++ [entry])).
  destruct (nodes_loop categories vms []); cbn [mbind result_bind]; [|done].
  by rewrite <- app_assoc.
Qed.

Lemma nodes_loop_ok categories vms :
  Forall (λ vbox_vm, ∀ k,
    k ∈ ["vmname"; "server"; "default_symbol"; "hover_symbol"; "category"] →
    is_Some (vbox_vm !! k)) vms →
  ∃ entries,
    nodes_loop categories vms [] = Ok entries
    ∧ Forall2 (λ vbox_vm entry,
        entry !! "class" = Some (PValue (VStr VirtualBoxVM_name))
        ∧ entry !! "name" = PValue <$> vbox_vm !! "vmname"
        ∧ entry !! "server" = PValue <$> vbox_vm !! "server"
        ∧ entry !! "default_symbol" = PValue <$> vbox_vm !! "default_symbol"
        ∧ entry !! "hover_symbol" = PValue <$> vbox_vm !! "hover_symbol"
        ∧ entry !! "categories" = (λ c, PList [c]) <$> vbox_vm !! "category"
        ∧ size entry = 6) vms entries.
Proof.
  induction 1 as [|vbox_vm vms Hhas _ (entries & Hentries & Hall)].
  { exists []. split; [done|constructor]. }
  destruct (Hhas "vmname") as [v1 H1]; [set_solver|].
  destruct (Hhas "server") as [v2 H2]; [set_solver|].
  destruct (Hhas "default_symbol") as [v3 H3]; [set_solver|].
  destruct (Hhas "hover_symbol") as [v4 H4]; [set_solver|].
  destruct (Hhas "category") as [v5 H5]; [set_solver|].
  eexists (_ :: entries). split.
  - cbn [nodes_loop]. rewrite (node_entry_ok _ _ v1 v2 v3 v4 v5) by done.
    cbn [mbind result_bind]. rewrite nodes_loop_app, Hentries. done.
  - constructor; [|done]. rewrite H1, H2, H3, H4, H5.
    repeat split; by simplify_map_eq.
Qed.

(** X18: on a registry whose templates all have the settings [vmname],
    [server], [default_symbol], [hover_symbol] and [category], [nodes]
    returns one dictionary per template, in the order of the registry; each
    has six keys: the class name, the four settings under [name], [server],
    [default_symbol] and [hover_symbol], and under [categories] the
    one-element list of the category. *)
Theorem nodes_lists_every_template categories w :
  Forall (λ kv, ∀ k,
    k ∈ ["vmname"; "server"; "default_symbol"; "hover_symbol"; "category"] →
    is_Some (kv.2 !! k)) (_virtualbox_vms (self w)) →
  ∃ entries,
    nodes categories w = (Ok entries, w)
    ∧ length entries = length (_virtualbox_vms (self w))
    ∧ Forall2 (λ kv entry,
        entry !! "class" = Some (PValue (VStr VirtualBoxVM_name))
        ∧ entry !! "name" = PValue <$> kv.2 !! "vmname"
        ∧ entry !! "server" = PValue <$> kv.2 !! "server"
        ∧ entry !! "default_symbol" = PValue <$> kv.2 !! "default_symbol"
        ∧ entry !! "hover_symbol" = PValue <$> kv.2 !! "hover_symbol"
        ∧ entry !! "categories" = (λ c, PList [c]) <$> kv.2 !! "category"
        ∧ size entry = 6) (_virtualbox_vms (self w)) entries.
Proof.
  intros Hall.
  destruct (nodes_loop_ok categories (dict_values (_virtualbox_vms (self w))))
    as (entries & Hentries & Hshape).
  { unfold dict_values. by apply Forall_fmap. }
  exists entries. split; [|split].
  - unfold nodes, mbind, M_bind, get_self, lift. by rewrite Hentries.
  - apply Forall2_length in Hshape. unfold dict_values in Hshape.
    by rewrite length_fmap in Hshape.
  - unfold dict_values in Hshape. by apply Forall2_fmap_l in Hshape.
Qed.

(** X19: [nodes] raises nothing but the [KeyError] of one of the five
    settings it reads, and only when a template of the registry lacks that
    setting. *)
Theorem nodes_raises_on_missing_setting categories w e w' :
  nodes categories w = (Raise e, w') →
  w' = w
  ∧ ∃ k key info,
      e = KeyError k
      ∧ k ∈ ["vmname"; "server"; "default_symbol"; "hover_symbol"; "category"]
      ∧ (key, info) ∈ _virtualbox_vms (self w)
      ∧ info !! k = None.
Proof.
  unfold nodes, mbind, M_bind, get_self, lift.
  destruct (nodes_loop _ _ _) as [entries|e1] eqn:Hloop; [done|].
  intros [= <- <-]. split; [done|].
  assert (∀ vms acc, nodes_loop categories vms acc = Raise e1 →
            ∃ k vbox_vm, e1 = KeyError k
              ∧ k ∈ ["vmname"; "server"; "default_symbol"; "hover_symbol"; "category"]
              ∧ vbox_vm ∈ vms ∧ vbox_vm !! k = None) as Hfind.
  { induction vms as [|vbox_vm vms IH]; intros acc; [done|].
    cbn [nodes_loop].
    destruct (node_entry categories vbox_vm) as [entry|e2] eqn:Hentry;
      cbn [mbind result_bind].
    - intros (k & v & ? & ? & ? & ?)%IH. exists k, v. split_and!; try done.
      by right.
    - intros [= ->]. apply node_entry_raises in Hentry as (k & ? & ? & ?).
      exists k, vbox_vm. split_and!; try done. left. }
  apply Hfind in Hloop as (k & vbox_vm & ? & ? & Hin & ?).
  unfold dict_values in Hin.
  apply list_elem_of_fmap in Hin as ([key info] & -> & Hin).
  by exists k, key, info.
Qed.
End NodesList.

(** ** [createNode] *)

Section CreateNodeFacts.
Context {Project NodeObject : Type}.
Variable reconnect : WebSocketClient → WebSocketClient + string.
Variable node_class : WebSocketClient → Project → M NodeObject.

Local Abbreviation createNode := (createNode reconnect node_class).

Lemma append_assoc (a b c : string) : (a +:+ b) +:+ c = a +:+ (b +:+ c).
Proof.
  induction a as [|ch a IH]; [done|].
  change (String ch ((a +:+ b) +:+ c) = String ch (a +:+ (b +:+ c))).
  by f_equal.
Qed.

Lemma includes_middle (before s after : string) :
  includes s (before +:+ s +:+ after).
Proof. by exists before, after. Qed.

(** X20: [createNode] runs the constructor of the node class on a connected
    server as it is, and on a server that was not connected as the
    reconnection leaves it.  When the reconnection raises [OSError], the
    constructor is not run and nothing has changed; the [ModuleError] that is
    raised has the host, the port and the text of the [OSError] in its
    message. *)
Theorem createNode_reconnects_first
    (server : WebSocketClient) (project : Project) (w : World) :
  (ws_connected server = true →
     createNode server project w = node_class server project w)
  ∧ (∀ server', ws_connected server = false → reconnect server = inl server' →
       createNode server project w = node_class server' project w)
  ∧ (∀ os_error, ws_connected server = false → reconnect server = inr os_error →
       createNode server project w = (Raise (could_not_connect server os_error), w)
       ∧ includes (ws_host server) (message (could_not_connect server os_error))
       ∧ includes (pretty (ws_port server))
           (message (could_not_connect server os_error))
       ∧ includes os_error (message (could_not_connect server os_error))).
Proof.
  unfold createNode, mbind, M_bind, mret, M_ret, raise.
  split_and!.
  - by intros ->.
  - by intros server' -> ->.
  - intros os_error -> ->. simpl. split_and!; [done|..].
    + apply includes_middle.
    + exists ("Could not connect to server " +:+ ws_host server +:+ ":"),
        (": " +:+ os_error).
      by rewrite !append_assoc.
    + exists ("Could not connect to server " +:+ ws_host server +:+ ":"
              +:+ pretty (ws_port server) +:+ ": "), "".
      rewrite !append_assoc. do 5 f_equal.
      induction os_error as [|ch os_error IH]; [done|].
      change (String ch os_error = String ch (os_error +:+ "")). by f_equal.
Qed.
End CreateNodeFacts.

(** ** [__init__] *)

Section InitFacts.
Variable VBOX_VM_SETTINGS : settings_dict.
Variable VBOX_VM_SETTING_TYPES : string → vtype.
Variable convert : vtype → value → value.
Variable loaded_settings : settings_dict.
Variable VirtualBoxVM_name : string.

Local Abbreviation __init__ :=
  (__init__ VBOX_VM_SETTINGS VBOX_VM_SETTING_TYPES convert loaded_settings).
Local Abbreviation load_vms := (load_vms VBOX_VM_SETTINGS VBOX_VM_SETTING_TYPES convert).

Lemma __init___vms (w : World) :
  _virtualbox_vms (self (exec __init__ w)) = load_vms (qsettings w) [].
Proof. done. Qed.

(** X21: a module that [__init__] has built owes nothing to what was there
    before: it has the loaded settings, no node, and a registry read from the
    stored array alone, in which the keys are pairwise different and every
    template has exactly the settings of [VBOX_VM_SETTINGS] and comes from a
    record whose [vmname] and [server] are truthy.  The stored array is read,
    not written. *)
Theorem init_builds_a_fresh_module (w : World) :
  let w' := exec __init__ w in
  (__init__ w).1 = Ok ()
  ∧ (∀ vb, self (exec __init__ (with_self vb w)) = self w')
  ∧ _settings (self w') = loaded_settings
  ∧ _nodes (self w') = []
  ∧ NoDup (dict_keys (_virtualbox_vms (self w')))
  ∧ (∀ key info, (key, info) ∈ _virtualbox_vms (self w') →
       dom info = dom VBOX_VM_SETTINGS
       ∧ ∃ rec, rec ∈ qsettings w ∧ usable rec = true ∧ key = record_key rec)
  ∧ qsettings w' = qsettings w
  ∧ calls w' = calls w.
Proof.
  intros w'. split_and!; try done.
  - unfold w'. rewrite __init___vms. apply load_vms_NoDup. apply NoDup_nil_2.
  - intros key info Hin. unfold w' in Hin. rewrite __init___vms in Hin.
    apply load_vms_elem in Hin as [Hin|(rec & ? & ? & -> & ->)].
    { by apply elem_of_nil in Hin. }
    split; [apply read_vm_dom|]. by exists rec.
Qed.

(** X22: when [VBOX_VM_SETTINGS] names the five settings [nodes] reads,
    [nodes] cannot raise on the module [__init__] has built, whatever the
    stored array holds: it returns one dictionary per template. *)
Theorem nodes_after_init_never_raises (categories : list value) (w : World) :
  (∀ k, k ∈ ["vmname"; "server"; "default_symbol"; "hover_symbol"; "category"] →
        is_Some (VBOX_VM_SETTINGS !! k)) →
  ∃ entries,
    (nodes VirtualBoxVM_name categories (exec __init__ w)).1 = Ok entries
    ∧ length entries = length (_virtualbox_vms (self (exec __init__ w))).
Proof.
  intros Hschema.
  destruct (nodes_loop_ok VirtualBoxVM_name categories
              (dict_values (_virtualbox_vms (self (exec __init__ w)))))
    as (entries & Hentries & Hshape).
  { unfold dict_values. apply Forall_fmap, Forall_forall.
    intros [key info] Hin k Hk. simpl.
    rewrite __init___vms in Hin.
    apply load_vms_elem in Hin as [Hin|(rec & _ & _ & _ & ->)].
    { by apply elem_of_nil in Hin. }
    apply elem_of_dom. rewrite read_vm_dom. apply elem_of_dom. by apply Hschema. }
  exists entries. split.
  - unfold nodes, mbind, M_bind, get_self, lift. by rewrite Hentries.
  - apply Forall2_length in Hshape. unfold dict_values in Hshape.
    by rewrite length_fmap in Hshape.
Qed.
End InitFacts.

(** ** The further properties on the concrete module *)

Section MoreWitnesses.
Local Abbreviation ex_load :=
  (_loadVirtualBoxVMs ex_VBOX_VM_SETTINGS ex_VBOX_VM_SETTING_TYPES ex_convert).
Local Abbreviation ex_read_vm :=
  (read_vm ex_VBOX_VM_SETTINGS ex_VBOX_VM_SETTING_TYPES ex_convert).
Local Abbreviation ex___init__ :=
  (__init__ ex_VBOX_VM_SETTINGS ex_VBOX_VM_SETTING_TYPES ex_convert ∅).

Lemma loaded_template_follows_schema_witness :
  dom (ex_read_vm (ex_template "debian" "local" false)) = dom ex_VBOX_VM_SETTINGS
  ∧ ∃ rec, rec ∈ qsettings (ex_start ex_records)
      ∧ record_key (ex_template "debian" "local" false) = record_key rec
      ∧ ∀ name default_value, ex_VBOX_VM_SETTINGS !! name = Some default_value →
          ex_read_vm (ex_template "debian" "local" false) !! name
          = Some (ex_convert (ex_VBOX_VM_SETTING_TYPES name)
                    (default default_value (rec !! name))).
Proof.
  apply (loaded_template_follows_schema ex_VBOX_VM_SETTINGS
           ex_VBOX_VM_SETTING_TYPES ex_convert (ex_start ex_records)
           (record_key (ex_template "debian" "local" false))
           (ex_read_vm (ex_template "debian" "local" false))).
  - reflexivity.
  - left.
Defined.

Lemma removeNode_removes_one_occurrence_witness :
  ex_node 1 ex_local "debian"
    :: _nodes (self (exec (removeNode (ex_node 1 ex_local "debian")) ex_world))
  ≡ₚ _nodes (self ex_world)
  ∧ _nodes (self (exec (removeNode (ex_node 3 ex_local "")) ex_world))
    = _nodes (self ex_world).
Proof.
  destruct (removeNode_removes_one_occurrence (ex_node 1 ex_local "debian") ex_world)
    as (_ & Hin & _).
  destruct (removeNode_removes_one_occurrence (ex_node 3 ex_local "") ex_world)
    as (_ & _ & Hout & _).
  split.
  - apply Hin. left.
  - apply Hout. intros Hin3. simpl in Hin3.
    repeat (apply elem_of_cons in Hin3 as [Hin3|Hin3]; [discriminate Hin3|]).
    by apply elem_of_nil in Hin3.
Defined.

Lemma addNode_then_removeNode_witness :
  let m := addNode (ex_node 3 ex_local "");; removeNode (ex_node 3 ex_local "") in
  (m ex_world).1 = Ok ()
  ∧ _nodes (self (exec m ex_world)) = _nodes (self ex_world)
  ∧ _virtualbox_vms (self (exec m ex_world)) = _virtualbox_vms (self ex_world)
  ∧ _settings (self (exec m ex_world)) = _settings (self ex_world).
Proof.
  apply (addNode_then_removeNode (ex_node 3 ex_local "") ex_world).
  intros Hin3. simpl in Hin3.
  repeat (apply elem_of_cons in Hin3 as [Hin3|Hin3]; [discriminate Hin3|]).
  by apply elem_of_nil in Hin3.
Defined.

(** The only template of the remote server goes to a node on that server
    without a question. *)
Lemma single_template_on_server_is_chosen_witness :
  select_vm (ex_node 3 ex_remote "") None ex_world = (Ok "10.0.0.2:router", ex_world)
  ∧ vm_getitem (_virtualbox_vms (self ex_world)) "10.0.0.2:router"
    = Ok (ex_template "router" "10.0.0.2" true).
Proof.
  apply (single_template_on_server_is_chosen (ex_node 3 ex_remote "") None
           "10.0.0.2:router" (ex_template "router" "10.0.0.2" true) ex_world);
    [reflexivity | discriminate | reflexivity].
Defined.

(** Two templates are on the local server: the dialog lists both. *)
Lemma several_templates_open_the_dialog_witness :
  select_vm (ex_node 3 ex_local "") None (ex_world_crowded ex_accept_first)
    = (Ok "local:debian",
       with_call (InputDialog ["local:debian"; "local:alpine"])
         (ex_world_crowded ex_accept_first))
  ∧ setupNode (ex_node 3 ex_local "") None (ex_world_crowded ex_cancel)
    = (Raise SelectionCancelled,
       with_call (InputDialog ["local:debian"; "local:alpine"])
         (ex_world_crowded ex_cancel)).
Proof.
  destruct (several_templates_open_the_dialog (ex_node 3 ex_local "") None
              (ex_world_crowded ex_accept_first)
              ("local:debian", ex_template "debian" "local" false)
              ("local:alpine", ex_template "alpine" "local" true) [])
    as [Haccept _]; [reflexivity | discriminate | reflexivity |].
  destruct (several_templates_open_the_dialog (ex_node 3 ex_local "") None
              (ex_world_crowded ex_cancel)
              ("local:debian", ex_template "debian" "local" false)
              ("local:alpine", ex_template "alpine" "local" true) [])
    as [_ Hcancel]; [reflexivity | discriminate | reflexivity |].
  split.
  - apply (Haccept "local:debian"). reflexivity.
  - apply (Hcancel ""). reflexivity.
Defined.

(** Two templates are named debian: the later one is taken. *)
Lemma last_template_of_the_name_is_chosen_witness :
  select_vm (ex_node 3 ex_local "") (Some "debian") (ex_world_crowded ex_cancel)
    = (Ok "10.0.0.2:debian", ex_world_crowded ex_cancel)
  ∧ vm_getitem (_virtualbox_vms (self (ex_world_crowded ex_cancel))) "10.0.0.2:debian"
    = Ok (ex_template "debian" "10.0.0.2" true).
Proof.
  apply (last_template_of_the_name_is_chosen (ex_node 3 ex_local "") "debian"
           [("local:debian", ex_template "debian" "local" false)]
           "10.0.0.2:debian" (ex_template "debian" "10.0.0.2" true)
           (ex_world_crowded ex_cancel));
    [reflexivity | discriminate | reflexivity].
Defined.

Lemma unused_template_is_set_up_witness :
  ∃ vmname,
    ex_template "debian" "local" false !! "vmname" = Some (VStr vmname)
    ∧ setupNode (ex_node 3 ex_local "") (Some "debian") ex_world_free
      = (Ok (), with_call
           (NodeSetup (ex_node 3 ex_local "") (VStr vmname) (VBool false)
              (additional_settings_for (ex_node 3 ex_local "")
                 (ex_template "debian" "local" false))) ex_world_free).
Proof.
  apply (unused_template_is_set_up (ex_node 3 ex_local "") (Some "debian")
           ex_world_free "local:debian" ex_world_free
           (ex_template "debian" "local" false)); try reflexivity.
  intros other_node Hin _. simpl in Hin.
  repeat (apply elem_of_cons in Hin as [->|Hin]; [reflexivity|]).
  by apply elem_of_nil in Hin.
Defined.
Lemma setupNode_success_effects_witness :
  let node := ex_node 3 ex_local "" in
  let w' := with_call
              (NodeSetup node (VStr "debian") (VBool false)
                 (additional_settings_for node (ex_template "debian" "local" false)))
              ex_world_free in
  self w' = self ex_world_free
  ∧ qsettings w' = qsettings ex_world_free
  ∧ ∃ vm info vmname linked_base additional_settings,
      dict_get vm (_virtualbox_vms (self ex_world_free)) = Some info
      ∧ info !! "vmname" = Some vmname
      ∧ info !! "linked_base" = Some linked_base
      ∧ additional_settings ⊆ info
      ∧ dom additional_settings ⊆ dom (node_settings node)
      ∧ setup_calls w'
        = setup_calls ex_world_free
          ++ [NodeSetup node vmname linked_base additional_settings].
Proof.
  apply (setupNode_success_effects (ex_node 3 ex_local "") (Some "debian")
           ex_world_free).
  reflexivity.
Defined.

Lemma template_in_use_only_when_used_witness :
  ∃ vm info linked_base other_node v_node v_template,
    select_vm (ex_node 3 ex_local "") (Some "debian") ex_world = (Ok vm, ex_world)
    ∧ dict_get vm (_virtualbox_vms (self ex_world)) = Some info
    ∧ info !! "linked_base" = Some linked_base ∧ truthy linked_base = false
    ∧ other_node ∈ _nodes (self ex_world)
    ∧ node_settings other_node !! "vmname" = Some v_node
    ∧ info !! "vmname" = Some v_template
    ∧ py_eq v_node v_template = true
    ∧ on_server info (node_server other_node) = true.
Proof.
  apply (template_in_use_only_when_used (ex_node 3 ex_local "") (Some "debian")
           ex_world ex_world).
  reflexivity.
Defined.

Lemma no_template_error_only_without_template_witness :
  "10.9.9.9" = host (node_server (ex_node 3 ex_elsewhere ""))
  ∧ ex_world = ex_world
  ∧ ∀ key info, (key, info) ∈ _virtualbox_vms (self ex_world) →
      on_server info (node_server (ex_node 3 ex_elsewhere "")) = false.
Proof.
  apply (no_template_error_only_without_template (ex_node 3 ex_elsewhere "") None
           ex_world "10.9.9.9" ex_world).
  reflexivity.
Defined.

Lemma nodes_lists_every_template_witness :
  ∃ entries,
    nodes "VirtualBoxVM" [VInt 2] ex_world = (Ok entries, ex_world)
    ∧ length entries = length (_virtualbox_vms (self ex_world))
    ∧ Forall2 (λ kv entry,
        entry !! "class" = Some (PValue (VStr "VirtualBoxVM"))
        ∧ entry !! "name" = PValue <$> kv.2 !! "vmname"
        ∧ entry !! "server" = PValue <$> kv.2 !! "server"
        ∧ entry !! "default_symbol" = PValue <$> kv.2 !! "default_symbol"
        ∧ entry !! "hover_symbol" = PValue <$> kv.2 !! "hover_symbol"
        ∧ entry !! "categories" = (λ c, PList [c]) <$> kv.2 !! "category"
        ∧ size entry = 6) (_virtualbox_vms (self ex_world)) entries.
Proof.
  apply (nodes_lists_every_template "VirtualBoxVM" [VInt 2] ex_world).
  repeat constructor; intros k Hk;
    repeat (apply elem_of_cons in Hk as [->|Hk]; [eexists; reflexivity|]);
    by apply elem_of_nil in Hk.
Defined.

(** The template without symbols stops [nodes] at [default_symbol]. *)
Lemma nodes_raises_on_missing_setting_witness :
  ex_world_bare = ex_world_bare
  ∧ ∃ k key info,
      KeyError "default_symbol" = KeyError k
      ∧ k ∈ ["vmname"; "server"; "default_symbol"; "hover_symbol"; "category"]
      ∧ (key, info) ∈ _virtualbox_vms (self ex_world_bare)
      ∧ info !! k = None.
Proof.
  apply (nodes_raises_on_missing_setting "VirtualBoxVM" [VInt 2] ex_world_bare
           (KeyError "default_symbol") ex_world_bare).
  reflexivity.
Defined.

(** The server refuses: no node, nothing registered. *)
Lemma createNode_reconnects_first_witness :
  createNode ex_refused ex_node_class ex_client "project" ex_world
    = (Raise (could_not_connect ex_client "[Errno 111] Connection refused"),
       ex_world)
  ∧ includes (ws_host ex_client)
      (message (could_not_connect ex_client "[Errno 111] Connection refused"))
  ∧ includes (pretty (ws_port ex_client))
      (message (could_not_connect ex_client "[Errno 111] Connection refused"))
  ∧ includes "[Errno 111] Connection refused"
      (message (could_not_connect ex_client "[Errno 111] Connection refused")).
Proof.
  destruct (createNode_reconnects_first ex_refused ex_node_class
              ex_client "project" ex_world) as (_ & _ & Hrefused).
  apply Hrefused; reflexivity.
Defined.

Lemma nodes_after_init_never_raises_witness :
  ∃ entries,
    (nodes "VirtualBoxVM" [VInt 2] (exec ex___init__ (ex_start ex_records))).1
    = Ok entries
    ∧ length entries
      = length (_virtualbox_vms (self (exec ex___init__ (ex_start ex_records)))).
Proof.
  apply (nodes_after_init_never_raises ex_VBOX_VM_SETTINGS
           ex_VBOX_VM_SETTING_TYPES ex_convert ∅ "VirtualBoxVM" [VInt 2]
           (ex_start ex_records)).
  intros k Hk.
  repeat (apply elem_of_cons in Hk as [->|Hk]; [eexists; reflexivity|]).
  by apply elem_of_nil in Hk.
Defined.
End MoreWitnesses.
